(** * The CGC certificate-lookup spider (src/cgc/spiders/cgc.py)

    A shallow embedding of [CgcSpider].  Its callbacks [parse_home],
    [_manual_form_submit], [parse_cert] and [save_image] are functions in a
    small generator monad that records, in order, what a callback yields
    and logs, and whether it returns or raises.

    Conventions.
    - A Python [str] is a [string]; the helpers of [Py] and [os_path]
      ([strip], [upper], [join], [basename], [splitext]) agree with CPython
      and posixpath on ASCII text.
    - A dict read by key is a [gmap]; the scraped item, whose column order
      matters, is an insertion-ordered association list; the [meta] of a
      request is a record of the keys the spider uses.
    - What comes from outside the repository is an input, not a
      re-implementation: the selectors of a response ([css], [xpath],
      [urljoin]) are fields of the response object, [csv.reader] is the
      list of rows it produces, the answers of the operating system to
      [save_image] are a record, and the functions of urllib, mimetypes and
      Scrapy are the fields of the class [Library].
    - Two things of Scrapy's request constructor are modelled, because the
      control flow of the callbacks depends on them: it rejects a keyword
      it does not declare ([TypeError]), and a URL it cannot use
      ([ValueError]). *)

From Stdlib Require Import Ascii String.
From stdpp Require Import base tactics option list strings pretty gmap.

#[local] Set Warnings "-clear-no-such-hyp".

(** ** Python strings *)

Module Py.

(** [str.isspace] on the ASCII range: TAB..CR, FS..US and the space. *)
Definition isspace (c : ascii) : bool :=
  let n := nat_of_ascii c in
  ((9 <=? n) && (n <=? 13)) || ((28 <=? n) && (n <=? 32)).

Fixpoint lstrip (s : string) : string :=
  match s with
  | EmptyString => EmptyString
  | String c r => if isspace c then lstrip r else s
  end.

Definition rstrip (s : string) : string := String.rev (lstrip (String.rev s)).

(** [s.strip()] *)
Definition strip (s : string) : string := rstrip (lstrip s).

Definition upper_char (c : ascii) : ascii :=
  let n := nat_of_ascii c in
  if (97 <=? n) && (n <=? 122) then ascii_of_nat (n - 32) else c.

(** [s.upper()] (ASCII letters; no other character upper-cases to one of
    G, E, T, so the comparison with ["GET"] below is exact). *)
Fixpoint upper (s : string) : string :=
  match s with
  | EmptyString => EmptyString
  | String c r => String (upper_char c) (upper r)
  end.

(** Truth value of a string: [if s:]. *)
Definition truthy (s : string) : bool :=
  match s with EmptyString => false | _ => true end.

(** Truth value of an optional string ([None] is false). *)
Definition truthy_opt (o : option string) : bool :=
  match o with Some s => truthy s | None => false end.

(** [c in s] for a single character. *)
Fixpoint contains (c : ascii) (s : string) : bool :=
  match s with
  | EmptyString => false
  | String d r => if decide (c = d) then true else contains c r
  end.

(** [s.split(c)[0]]: the part before the first [c]. *)
Fixpoint split_head (c : ascii) (s : string) : string :=
  match s with
  | EmptyString => EmptyString
  | String d r => if decide (c = d) then EmptyString else String d (split_head c r)
  end.

(** [s.startswith(c)] and [s.endswith(c)] for a single character. *)
Definition startswith (c : ascii) (s : string) : bool :=
  match s with String d _ => bool_decide (c = d) | EmptyString => false end.
Fixpoint endswith (c : ascii) (s : string) : bool :=
  match s with
  | EmptyString => false
  | String d EmptyString => bool_decide (c = d)
  | String _ r => endswith c r
  end.

End Py.

(** ** posixpath *)

Module os_path.

Definition sep : ascii := "/"%char.
Definition extsep : ascii := "."%char.

(** [os.path.join(a, b)] *)
Definition join (a b : string) : string :=
  if Py.startswith sep b then b
  else if negb (Py.truthy a) || Py.endswith sep a then a +:+ b
  else a +:+ String sep b.

Fixpoint basename_from (acc p : string) : string :=
  match p with
  | EmptyString => acc
  | String c r => if decide (c = sep) then basename_from r r else basename_from acc r
  end.

(** [os.path.basename(p)]: what follows the last separator. *)
Definition basename (p : string) : string := basename_from p p.

(** The suffix of [p] starting at its last [extsep] that comes after at
    least one character other than [extsep]; [seen] tells whether such a
    character precedes the current position. *)
Fixpoint ext_from (seen : bool) (p : string) : option string :=
  match p with
  | EmptyString => None
  | String c r =>
      if decide (c = extsep) then
        match ext_from seen r with
        | Some e => Some e
        | None => if seen then Some p else None
        end
      else ext_from true r
  end.

(** Whether [p] has a character other than [extsep]. *)
Fixpoint has_stem (p : string) : bool :=
  match p with
  | EmptyString => false
  | String c r => if decide (c = extsep) then has_stem r else true
  end.

(** [os.path.splitext(p)[1]] for a [p] without separator (a basename):
    the extension starts at the last dot, leading dots do not count. *)
Definition splitext_ext (p : string) : string :=
  default EmptyString (ext_from false p).

End os_path.

(** ** Exceptions, log records *)

Inductive exn :=
  | FileNotFoundError (msg : string)
  | OSError (errno : nat) (msg : string)
  | TypeError (msg : string)
  | ValueError (msg : string)
  | IndexError (msg : string)
  | Exception (msg : string).

(** [str(e)] *)
Definition exn_str (e : exn) : string :=
  match e with
  | FileNotFoundError m | OSError _ m | TypeError m
  | ValueError m | IndexError m | Exception m => m
  end.

(** [isinstance(e, OSError)] and [e.errno] *)
Definition ENOENT : nat := 2.
Definition EEXIST : nat := 17.
Definition os_errno (e : exn) : option nat :=
  match e with
  | FileNotFoundError _ => Some ENOENT
  | OSError n _ => Some n
  | _ => None
  end.

Inductive level := INFO | WARNING | ERROR.

Inductive outcome (A : Type) :=
  | Return (a : A)
  | Raise (e : exn).
Arguments Return {A} a.
Arguments Raise {A} e.

Global Instance outcome_ret : MRet outcome := @Return.
Global Instance outcome_bind : MBind outcome := λ A B k m,
  match m with
  | Return a => k a
  | Raise e => Raise e
  end.

(** ** Requests, responses and items *)

Inductive callback := cb_parse_home | cb_parse_cert | cb_save_image.
Inductive errback := cb_errback_log.

(** The [meta] dict of a request, by the keys the spider uses; [None] is an
    absent key.  The value under ["cert"] may itself be Python's [None]. *)
Record Meta := {
  m_cert : option (option string);
  m_proxy : option string;
  m_index : option nat;
  m_formdata : option (list (string * string));
}.

Definition no_meta : Meta :=
  {| m_cert := None; m_proxy := None; m_index := None; m_formdata := None |}.

(** What a request carries besides its URL: nothing, or url-encoded form
    fields in its body. *)
Inductive payload :=
  | NoBody
  | FormEncoded (fields : list (string * string)).

Record Request := {
  rq_url : string;
  rq_method : string;
  rq_body : payload;
  rq_callback : callback;
  rq_errback : errback;
  rq_meta : Meta;
  rq_dont_filter : bool;
}.

(** An element (or attribute value) selected in a page: [sel.attrib] and
    [sel.get()]. *)
Record Selector := {
  attrib : gmap string string;
  get : string;
}.

(** A response object: its data and the methods the spider calls on it. *)
Record Response := {
  url : string;
  meta : Meta;
  headers : gmap string string;
  body : list Byte.byte;
  css : string → list Selector;
  xpath : string → list Selector;
  response_urljoin : string → string;
}.

(** [sels.getall()] *)
Definition getall (sels : list Selector) : list string := get <$> sels.

(** [sels.attrib]: the attributes of the first selected element. *)
Definition first_attrib (sels : list Selector) : gmap string string :=
  match sels with
  | [] => ∅
  | s :: _ => attrib s
  end.

(** A scraped item: a dict from column name to value, in insertion order. *)
Abbreviation item := (list (string * option string)).

(** [d[k] = v] on an insertion-ordered dict. *)
Definition dict_set {V} (k : string) (v : V) (d : list (string * V)) : list (string * V) :=
  if bool_decide (k ∈ d.*1)
  then (λ kv, if decide (kv.1 = k) then (k, v) else kv) <$> d
  else d ++ [(k, v)].

Inductive output :=
  | Item (i : item)
  | Req (r : Request).

(** ** The generator monad

    A callback run to its end: the events it produced, in order, and how it
    ended.  A raised exception ends the run; what was yielded before stays. *)

Inductive event :=
  | Yield (o : output)
  | Log (l : level) (msg : string).

Definition gen (A : Type) : Type := list event * outcome A.

Global Instance gen_ret : MRet gen := λ A a, ([], Return a).
Global Instance gen_bind : MBind gen := λ A B k m,
  match m.2 with
  | Return a => (m.1 ++ (k a).1, (k a).2)
  | Raise e => (m.1, Raise e)
  end.

Definition yield (o : output) : gen unit := ([Yield o], Return tt).
Definition log (l : level) (msg : string) : gen unit := ([Log l msg], Return tt).
Definition raise {A} (e : exn) : gen A := ([], Raise e).

(** [yield from] over the elements of a list, in order. *)
Fixpoint for_each {A} (l : list A) (f : A → gen unit) : gen unit :=
  match l with
  | [] => mret tt
  | x :: l => f x ;; for_each l f
  end.

(** A [for] loop whose body may [break]. *)
Inductive flow := Continue | Break.

Fixpoint for_break {A} (l : list A) (f : A → gen flow) : gen unit :=
  match l with
  | [] => mret tt
  | x :: l => fl ← f x; match fl with Break => mret tt | Continue => for_break l f end
  end.

(** Observations on a run. *)
Definition yields {A} (g : gen A) : list output :=
  omap (λ e, match e with Yield o => Some o | Log _ _ => None end) g.1.
Definition requests {A} (g : gen A) : list Request :=
  omap (λ o, match o with Req r => Some r | Item _ => None end) (yields g).
Definition items {A} (g : gen A) : list item :=
  omap (λ o, match o with Item i => Some i | Req _ => None end) (yields g).
Definition logs {A} (g : gen A) : list (level * string) :=
  omap (λ e, match e with Log l m => Some (l, m) | Yield _ => None end) g.1.
Definition result {A} (g : gen A) : outcome A := g.2.

(** ** What the spider imports *)

Class Library := {
  (** [urllib.parse.unquote] *)
  unquote : string → string;
  (** [urllib.parse.urlsplit(u).path] *)
  urlsplit_path : string → string;
  (** [urllib.parse.urljoin] *)
  urljoin : string → string → string;
  (** [mimetypes.guess_extension] *)
  guess_extension : string → option string;
  (** [FormRequest.from_response(response, formdata=, clickdata=)]: the URL,
      method and payload of the request it builds, or the exception it
      raises (no form, no element that matches [clickdata] in a form
      that has clickable elements, ...). *)
  from_response :
    Response → list (string * string) → list (string * string) →
    outcome (string * string * payload);
  (** Whether [scrapy.Request] accepts the URL: it raises [ValueError]
      (missing scheme) on one it does not. *)
  request_url_ok : string → bool;
}.

(** [scrapy.Request.__init__] takes these keyword arguments and no others
    (it has no catch-all for keywords), so Python raises [TypeError] on a
    call that passes any other keyword, whatever the value passed, before a
    request exists.  [new_Request kwargs r] is a constructor call with the
    keywords [kwargs] that would build [r]. *)
Definition Request_keywords : list string :=
  ["url"; "callback"; "method"; "headers"; "body"; "cookies"; "meta";
   "encoding"; "priority"; "dont_filter"; "errback"; "flags"; "cb_kwargs"].

Definition new_Request `{lib : Library} (kwargs : list string) (r : Request) : gen Request :=
  match filter (λ k, k ∉ Request_keywords) kwargs with
  | [] =>
      if request_url_ok (rq_url r) then mret r
      else raise (ValueError ("Missing scheme in request url: " +:+ rq_url r))
  | k :: _ =>
      raise (TypeError ("Request.__init__() got an unexpected keyword argument '" +:+ k +:+ "'"))
  end.

(** ** csv.DictReader *)

Module csv.

(** What iterating [csv.reader(f)] gives: a row, or an exception raised
    when that row is asked for. *)
Definition reader := list (outcome (list string)).

(** [DictReader.fieldnames]: the first row ([None] on an empty file), and
    the rows left. *)
Definition fieldnames (rd : reader) : outcome (option (list string) * reader) :=
  match rd with
  | [] => Return (None, [])
  | Return r :: rest => Return (Some r, rest)
  | Raise e :: _ => Raise e
  end.

(** The dict [DictReader] makes of a row: [dict(zip(fieldnames, row))],
    then [None] under each field name the row is too short for.  (Extra
    values go under the key [None], which the spider never reads.) *)
Definition row_dict (fn r : list string) : gmap string (option string) :=
  let d := foldl (λ d kv, <[kv.1 := Some kv.2]> d) ∅ (zip fn r) in
  foldl (λ d k, <[k := None]> d) d (drop (length r) fn).

(** [row.get(key)] *)
Definition row_get (row : gmap string (option string)) (key : string) : option string :=
  mjoin (row !! key).

End csv.

(** ** The spider *)

Definition dq : string := String "034" EmptyString.

(** The selectors of the source, as written there. *)
Definition sel_tel_input : string := "input[type=" +:+ dq +:+ "tel" +:+ dq +:+ "]".
Definition sel_tel_form : string := "//form[.//input[@type=" +:+ dq +:+ "tel" +:+ dq +:+ "]]".
Definition sel_form_input_names : string := "form input::attr(name)".
Definition sel_hrefs : string := "div.certlookup-images-item a::attr(href)".
Definition sel_srcs : string := "div.certlookup-images-item a img::attr(src)".
Definition sel_direct_srcs : string := "div.certlookup-images-item img::attr(src)".

(** Class attributes of [CgcSpider]. *)
Definition start_urls : list string := ["https://www.cgccards.com/"].
Definition csv_path : string := "CGC.csv".
Definition proxy_url : string := "Enter_Your_ZenRows_Proxy_Here".
Definition images_store : string := "images".

(** The [for row in reader] loop of [parse_home] over the column [key]:
    blank rows are skipped by [DictReader]; a value is kept when it is
    truthy, and it is stripped when it is appended. *)
Fixpoint read_column (fn : list string) (key : string) (rd : csv.reader)
    (certs : list string) : outcome (list string) :=
  match rd with
  | [] => Return certs
  | Raise e :: _ => Raise e
  | Return [] :: rest => read_column fn key rest certs
  | Return r :: rest =>
      let cert := csv.row_get (csv.row_dict fn r) key in
      if Py.truthy_opt cert
      then read_column fn key rest (certs ++ [Py.strip (default EmptyString cert)])
      else read_column fn key rest certs
  end.

(** The body of the [try] in [parse_home]: open the file, read the header,
    collect the certificates of the column [Cert], or of the first column. *)
Definition load_certs (open_csv : string → outcome csv.reader) : outcome (list string) :=
  rd ← open_csv csv_path;
  hd ← csv.fieldnames rd;
  match hd.1 with
  | None => Raise (TypeError "argument of type 'NoneType' is not iterable")
  | Some fn =>
      if bool_decide ("Cert" ∈ fn) then read_column fn "Cert" hd.2 []
      else
        match fn with
        | [] => Raise (IndexError "list index out of range")
        | first_field :: _ => read_column fn first_field hd.2 []
        end
  end.

Definition fixed_field_names : list string :=
  ["cert"; "certificate"; "serial"; "lookup"; "search"; "q"].

Section Spider.
Context `{lib : Library}.

Definition start_requests : gen unit :=
  for_each start_urls (λ url,
    r ← new_Request ["url"; "callback"; "errback"; "meta"]
          {| rq_url := url; rq_method := "GET"; rq_body := NoBody;
             rq_callback := cb_parse_home; rq_errback := cb_errback_log;
             rq_meta := {| m_cert := None; m_proxy := Some proxy_url;
                           m_index := None; m_formdata := None |};
             rq_dont_filter := false |};
    yield (Req r)).

(** [candidate_field_names] of [_manual_form_submit]. *)
Definition candidate_field_names (response : Response) : list string :=
  let found_names := getall (css response sel_form_input_names) in
  found_names ++ fixed_field_names.

(** [target] of [_manual_form_submit]. *)
Definition submit_target (form_action : option string) (response : Response) : string :=
  if negb (Py.truthy_opt form_action) then url response
  else urljoin (url response) (default EmptyString form_action).

(** The body of the [for field_name in candidate_field_names] loop of
    [_manual_form_submit]; it ends in the loop's [break]. *)
Definition manual_attempt (cert form_method : string) (meta : Meta) (target field_name : string)
    : gen flow :=
  let formdata := [(field_name, cert)] in
  log INFO ("Attempting manual " +:+ form_method +:+ " to " +:+ target
            +:+ " with field '" +:+ field_name +:+ "'") ;;
  (if decide (form_method = "GET") then
     (* the call passes [params=...], with the form data or [None] as value *)
     r ← new_Request
           ["url"; "method"; "callback"; "errback"; "meta"; "dont_filter"; "params"]
           {| rq_url := target; rq_method := "GET"; rq_body := NoBody;
              rq_callback := cb_parse_cert; rq_errback := cb_errback_log;
              rq_meta := {| m_cert := m_cert meta; m_proxy := m_proxy meta;
                            m_index := m_index meta; m_formdata := Some formdata |};
              rq_dont_filter := true |};
     yield (Req r)
   else
     (* FormRequest with method POST: the form data is the body *)
     r ← new_Request
           ["url"; "method"; "callback"; "errback"; "meta"; "dont_filter"]
           {| rq_url := target; rq_method := "POST"; rq_body := FormEncoded formdata;
              rq_callback := cb_parse_cert; rq_errback := cb_errback_log;
              rq_meta := meta; rq_dont_filter := true |};
     yield (Req r)) ;;
  mret Break.

Definition _manual_form_submit (cert : string) (form_action : option string)
    (form_method : string) (meta : Meta) (response : Response) : gen unit :=
  let target := submit_target form_action response in
  for_break (candidate_field_names response) (manual_attempt cert form_method meta target).

(** The submission of one certificate: the body of the [for cert in certs]
    loop of [parse_home]. *)
Definition submit_cert (response : Response) (input_name form_action : option string)
    (form_method : string) (cert : string) : gen unit :=
  let meta := {| m_cert := Some (Some cert); m_proxy := Some proxy_url;
                 m_index := None; m_formdata := None |} in
  if Py.truthy_opt input_name then
    match from_response response [(default EmptyString input_name, cert)] [("name", "lookup")] with
    | Return (u, m, b) =>
        yield (Req {| rq_url := u; rq_method := m; rq_body := b;
                      rq_callback := cb_parse_cert; rq_errback := cb_errback_log;
                      rq_meta := meta; rq_dont_filter := true |})
    | Raise e =>
        log WARNING ("FormRequest.from_response failed: " +:+ exn_str e
                     +:+ ". Falling back to manual form POST.") ;;
        _manual_form_submit cert form_action form_method meta response
    end
  else _manual_form_submit cert form_action form_method meta response.

(** What [parse_home] reads off the home page: the [name] and [id] of the
    first [input[type=tel]], and the [action] and upper-cased [method] of
    the first form that contains such an input ([None] and [POST] when
    there is no such form). *)
Definition tel_input_name (response : Response) : option string :=
  first_attrib (css response sel_tel_input) !! "name".

Definition tel_input_id (response : Response) : option string :=
  first_attrib (css response sel_tel_input) !! "id".

Definition tel_form_action (response : Response) : option string :=
  match xpath response sel_tel_form with
  | [] => None
  | form :: _ => Some (default EmptyString (attrib form !! "action"))
  end.

Definition tel_form_method (response : Response) : string :=
  match xpath response sel_tel_form with
  | [] => "POST"
  | form :: _ => Py.upper (default "POST" (attrib form !! "method"))
  end.

Definition parse_home (open_csv : string → outcome csv.reader) (response : Response) : gen unit :=
  log INFO "Fetched homepage, locating telephone input & form..." ;;
  let input_name := tel_input_name response in
  let input_id := tel_input_id response in
  let form_action := tel_form_action response in
  let form_method := tel_form_method response in
  (if Py.truthy_opt input_name then
     log INFO ("Found input[type='tel'] name='" +:+ default EmptyString input_name +:+ "'")
   else if Py.truthy_opt input_id then
     log WARNING ("Found input[type='tel'] with id='" +:+ default EmptyString input_id
                  +:+ "' but no name attribute. Will attempt to submit using form action.")
   else
     log WARNING ("Could not find input[type='tel'] name or id on the page."
                  +:+ " Will attempt fallback submission.")) ;;
  match load_certs open_csv with
  | Raise (FileNotFoundError _) =>
      log ERROR ("CSV file not found at " +:+ csv_path +:+ ". Make sure path is correct.")
  | Raise e =>
      log ERROR ("Error reading CSV: " +:+ exn_str e)
  | Return certs =>
      match certs with
      | [] => log ERROR "No certs found in CSV - nothing to do."
      | _ =>
          log INFO ("Found " +:+ pretty (length certs) +:+ " cert(s) in CSV. Submitting lookups...") ;;
          for_each certs (submit_cert response input_name form_action form_method)
      end
  end.

(** The loop of [parse_cert] over [hrefs + srcs + direct_srcs]: empty
    references are skipped, the others are resolved with
    [response.urljoin] and appended unless already present. *)
Definition collect_images (response : Response) : list string :=
  let hrefs := getall (css response sel_hrefs) in
  let srcs := getall (css response sel_srcs) in
  let direct_srcs := getall (css response sel_direct_srcs) in
  foldl (λ imgs u,
           if negb (Py.truthy u) then imgs
           else
             let u := response_urljoin response u in
             if bool_decide (u ∈ imgs) then imgs else imgs ++ [u])
        [] (hrefs ++ srcs ++ direct_srcs).

(** [item = {"cert": cert}], then [item[f"image_{i+1}"] = img_url]. *)
Definition build_item (cert : option string) (imgs : list string) : item :=
  foldl (λ it p, dict_set ("image_" +:+ pretty (p.1 + 1)) (Some p.2) it)
        [("cert", cert)] (imap pair imgs).

(** The body of the download loop of [parse_cert]: one request per image,
    with its 1-based index. *)
Definition download_image (cert : option string) (p : nat * string) : gen unit :=
  r ← new_Request ["url"; "callback"; "errback"; "meta"; "dont_filter"]
        {| rq_url := p.2; rq_method := "GET"; rq_body := NoBody;
           rq_callback := cb_save_image; rq_errback := cb_errback_log;
           rq_meta := {| m_cert := Some cert; m_index := Some (p.1 + 1);
                         m_proxy := Some proxy_url; m_formdata := None |};
           rq_dont_filter := true |};
  yield (Req r).

Definition parse_cert (response : Response) : gen unit :=
  let cert := mjoin (m_cert (meta response)) in
  let cert_str := default "None" cert in
  log INFO ("Parsing detail page for cert " +:+ cert_str +:+ " (URL: " +:+ url response +:+ ")") ;;
  let imgs := collect_images response in
  (match imgs with
   | [] => log INFO ("No images found for cert " +:+ cert_str +:+ ".")
   | _ => log INFO ("Found " +:+ pretty (length imgs) +:+ " image(s) for cert " +:+ cert_str +:+ ".")
   end) ;;
  yield (Item (build_item cert imgs)) ;;
  for_each (imap pair imgs) (download_image cert).

(** [_ext_from_url] of [save_image]. *)
Definition _ext_from_url (u : string) : string :=
  let path := urlsplit_path (unquote u) in
  let base := os_path.basename path in
  if Py.contains "." base then os_path.splitext_ext base else EmptyString.

(** The extension [save_image] settles on. *)
Definition image_ext (response : Response) : string :=
  let ext := _ext_from_url (url response) in
  let ext :=
    if negb (Py.truthy ext) then
      let ctype := default EmptyString (headers response !! "Content-Type") in
      default EmptyString (guess_extension (Py.strip (Py.split_head ";" ctype)))
    else ext in
  if negb (Py.truthy ext) then ".jpg" else ext.

End Spider.

(** ** Saving an image

    The file system is the map from paths to file contents.  What the
    operating system answers to the three calls of one [save_image] is an
    input: the outcome of [os.makedirs], of [open(path, "wb")], and of
    writing the body (all of it, or an error after [n] bytes reached the
    file). *)

Inductive write_result :=
  | Written
  | WriteError (n : nat) (e : exn).

Record os_calls := {
  os_makedirs : outcome unit;
  os_open : outcome unit;
  os_write : write_result;
}.

Definition all_ok : os_calls :=
  {| os_makedirs := Return tt; os_open := Return tt; os_write := Written |}.

Section Downloader.
Context `{lib : Library}.

(** The destination of [save_image]: [os.path.join(folder, filename)]. *)
Definition image_path (cert : string) (index : nat) (ext : string) : string :=
  let folder := os_path.join images_store cert in
  let filename := "image_" +:+ pretty index +:+ ext in
  os_path.join folder filename.

(** [save_image] from the extension on: the file is opened under its final
    name and the body written to it; any exception is logged. *)
Definition write_image (os : os_calls) (response : Response) (cert : string) (index : nat)
    (disk : gmap string (list Byte.byte)) : gen (gmap string (list Byte.byte)) :=
  let ext := image_ext response in
  let path := image_path cert index ext in
  match os_open os with
  | Raise e =>
      log ERROR ("Failed to save image " +:+ path +:+ ": " +:+ exn_str e) ;;
      mret disk
  | Return _ =>
      match os_write os with
      | Written =>
          log INFO ("Saved image for cert " +:+ cert +:+ ": " +:+ path) ;;
          mret (<[path := body response]> disk)
      | WriteError n e =>
          log ERROR ("Failed to save image " +:+ path +:+ ": " +:+ exn_str e) ;;
          mret (<[path := take n (body response)]> disk)
      end
  end.

(** [cert = response.meta.get("cert", "unknown")]: [None] is Python's
    [None], stored under the key. *)
Definition save_cert (response : Response) : option string :=
  match m_cert (meta response) with
  | None => Some "unknown"
  | Some v => v
  end.

(** [save_image]; it returns the file system it leaves. *)
Definition save_image (os : os_calls) (response : Response)
    (disk : gmap string (list Byte.byte)) : gen (gmap string (list Byte.byte)) :=
  let cert := save_cert response in
  let index := default 0 (m_index (meta response)) in
  match cert with
  | None => raise (TypeError "expected str, bytes or os.PathLike object, not NoneType")
  | Some cert =>
      let folder := os_path.join images_store cert in
      match os_makedirs os with
      | Return _ => write_image os response cert index disk
      | Raise e =>
          match os_errno e with
          | None => raise e
          | Some errno =>
              if decide (errno ≠ EEXIST) then
                log ERROR ("Failed to create directory " +:+ folder +:+ ": " +:+ exn_str e) ;;
                mret disk
              else write_image os response cert index disk
          end
      end
  end.

End Downloader.

(** ** A concrete environment

    A small library instance and a few pages, to run the spider on.  On the
    URLs used here (absolute, no escapes, no query) the functions below give
    what urllib gives. *)

Module Sample.

Fixpoint after_scheme (s : string) : option string :=
  match s with
  | EmptyString => None
  | String c r =>
      match c, r with
      | ":"%char, String "/"%char (String "/"%char r') => Some r'
      | _, _ => after_scheme r
      end
  end.

Fixpoint from_slash (s : string) : string :=
  match s with
  | EmptyString => EmptyString
  | String c r => if decide (c = "/"%char) then s else from_slash r
  end.

Fixpoint upto_slash (s : string) : string :=
  match s with
  | EmptyString => EmptyString
  | String c r => if decide (c = "/"%char) then EmptyString else String c (upto_slash r)
  end.

Definition url_path (u : string) : string :=
  match after_scheme u with
  | Some r => from_slash r
  | None => u
  end.

(** Joins an absolute URL or an absolute path to the origin of [base]. *)
Definition url_join (base u : string) : string :=
  match after_scheme u, after_scheme base with
  | Some _, _ => u
  | None, Some r => String.substring 0 (String.length base - String.length r) base +:+ upto_slash r +:+ u
  | None, None => u
  end.

Definition mime_ext (t : string) : option string :=
  if decide (t = "image/gif") then Some ".gif"
  else if decide (t = "image/png") then Some ".png"
  else if decide (t = "image/jpeg") then Some ".jpg"
  else if decide (t = "image/webp") then Some ".webp"
  else None.

(** What Scrapy looks for in the form: its clickable elements (submit and
    image inputs, submit buttons), and the elements that match the
    [clickdata] of the spider, [{"name": "lookup"}]. *)
Definition sel_clickable : string :=
  "form input[type=submit], form input[type=image], form button[type=submit], form button:not([type])".

Definition sel_lookup : string := "[name=lookup]".

(** Stands in for [FormRequest.from_response] with the [clickdata] of the
    spider.  As in Scrapy, a form without any clickable element is
    submitted with the form data alone, [clickdata] being ignored; when the
    form has clickable elements, the element that matches [clickdata] is
    clicked, its name and value joining the fields, and the call raises
    [ValueError] when no element matches, or more than one (the message
    then leaves out the [repr] of the elements).  The request is a POST
    to the page's own URL. *)
Definition submit_form (response : Response) (formdata clickdata : list (string * string))
    : outcome (string * string * payload) :=
  match css response sel_clickable with
  | [] => Return (url response, "POST", FormEncoded formdata)
  | _ :: _ =>
      match css response sel_lookup with
      | [] => Raise (ValueError "No clickable element matching clickdata: {'name': 'lookup'}")
      | [el] =>
          Return (url response, "POST",
                  FormEncoded (formdata ++ [("lookup", default EmptyString (attrib el !! "value"))]))
      | _ :: _ :: _ =>
          Raise (ValueError "Multiple elements found matching the criteria in clickdata: {'name': 'lookup'}")
      end
  end.

Global Instance library : Library := {|
  unquote := id;
  urlsplit_path := url_path;
  urljoin := url_join;
  guess_extension := mime_ext;
  from_response := submit_form;
  request_url_ok := λ u, bool_decide (is_Some (after_scheme u));
|}.

Definition text (s : string) : Selector := {| attrib := ∅; get := s |}.
Definition element (attrs : list (string * string)) : Selector :=
  {| attrib := list_to_map attrs; get := EmptyString |}.

Definition home_url : string := "https://www.cgccards.com/".

(** A home page: the [tel] inputs, the forms around them, the [name]
    attributes of the inputs in forms, and the clickable elements of the
    form. *)
Definition page (tel forms : list Selector) (names : list string) (buttons : list Selector)
    : Response :=
  {| url := home_url; meta := no_meta; headers := ∅; body := [];
     css := λ q,
       if decide (q = sel_tel_input) then tel
       else if decide (q = sel_form_input_names) then text <$> names
       else if decide (q = sel_clickable) then buttons
       else if decide (q = sel_lookup)
       then filter (λ b, attrib b !! "name" = Some "lookup") buttons
       else [];
     xpath := λ q, if decide (q = sel_tel_form) then forms else [];
     response_urljoin := url_join home_url |}.

(** The home page whose only clickable element, if it has one, is the
    [lookup] button. *)
Definition home (tel forms : list Selector) (names : list string) (button : bool) : Response :=
  page tel forms names (if button then [element [("type", "submit"); ("name", "lookup")]] else []).

(** A detail page for [cert] with the references each selector finds. *)
Definition detail (cert : string) (hrefs srcs direct_srcs : list string) : Response :=
  let u := "https://www.cgccards.com/certlookup/" +:+ cert +:+ "/" in
  {| url := u;
     meta := {| m_cert := Some (Some cert); m_proxy := Some proxy_url;
                m_index := None; m_formdata := None |};
     headers := ∅; body := [];
     css := λ q,
       if decide (q = sel_hrefs) then text <$> hrefs
       else if decide (q = sel_srcs) then text <$> srcs
       else if decide (q = sel_direct_srcs) then text <$> direct_srcs
       else [];
     xpath := λ _, [];
     response_urljoin := url_join u |}.

(** The response to an image download. *)
Definition image (u : string) (cert : string) (index : nat) (ctype : option string)
    (bytes : list Byte.byte) : Response :=
  {| url := u;
     meta := {| m_cert := Some (Some cert); m_proxy := Some proxy_url;
                m_index := Some index; m_formdata := None |};
     headers := match ctype with Some t => {[ "Content-Type" := t ]} | None => ∅ end;
     body := bytes;
     css := λ _, []; xpath := λ _, [];
     response_urljoin := url_join u |}.

(** A file system holding [rows] as the CSV file of the spider. *)
Definition csv_file (rows : list (list string)) (path : string) : outcome csv.reader :=
  if decide (path = csv_path) then Return (Return <$> rows)
  else Raise (FileNotFoundError ("[Errno 2] No such file or directory: '" +:+ path +:+ "'")).

Definition no_file (path : string) : outcome csv.reader :=
  Raise (FileNotFoundError ("[Errno 2] No such file or directory: '" +:+ path +:+ "'")).

End Sample.

(** * Vocabulary of the properties

    Names for the parts of a run the statements below speak of, the
    properties as the specification words them, and the pages and files
    the spider is run on. *)

Section Vocabulary.
Context `{lib : Library}.

(** The record [_manual_form_submit] logs for an attempt, and the request
    of its POST branch. *)
Definition attempt_log (form_method target field_name : string) : event :=
  Log INFO ("Attempting manual " +:+ form_method +:+ " to " +:+ target
            +:+ " with field '" +:+ field_name +:+ "'").

Definition post_request (cert : string) (meta : Meta) (target field_name : string) : Request :=
  {| rq_url := target; rq_method := "POST"; rq_body := FormEncoded [(field_name, cert)];
     rq_callback := cb_parse_cert; rq_errback := cb_errback_log;
     rq_meta := meta; rq_dont_filter := true |}.

(** The certificate a request carries in its [meta], and the [meta] that
    [parse_home] gives the submission of [cert]. *)
Definition cert_of (r : Request) : option (option string) := m_cert (rq_meta r).

Definition submit_meta (cert : string) : Meta :=
  {| m_cert := Some (Some cert); m_proxy := Some proxy_url;
     m_index := None; m_formdata := None |}.

(** The loop [parse_home] runs once the certificates are loaded. *)
Definition submission_loop (response : Response) (certs : list string) : gen unit :=
  for_each certs
    (submit_cert response (tel_input_name response) (tel_form_action response)
       (tel_form_method response)).

(** The message [parse_home] logs when it stops before the loop. *)
Definition stop_message (load : outcome (list string)) : option string :=
  match load with
  | Raise (FileNotFoundError _) =>
      Some ("CSV file not found at " +:+ csv_path +:+ ". Make sure path is correct.")
  | Raise e => Some ("Error reading CSV: " +:+ exn_str e)
  | Return [] => Some "No certs found in CSV - nothing to do."
  | Return _ => None
  end.

(** C8 as stated: nothing but a failure to load the input stops the run
    before any submission. *)
Definition stops_only_on_input_failure (open_csv : string → outcome csv.reader)
    (response : Response) : Prop :=
  yields (parse_home open_csv response) = [] → ∃ e, load_certs open_csv = Raise e.

(** Deduplication that keeps first occurrences, in words of the
    specification: the head stays, and is removed from what follows. *)
Fixpoint first_occurrences (l : list string) : list string :=
  match l with
  | [] => []
  | x :: l => x :: filter (λ y, y ≠ x) (first_occurrences l)
  end.

(** [if u not in imgs: imgs.append(u)] *)
Definition add_new (imgs : list string) (u : string) : list string :=
  if bool_decide (u ∈ imgs) then imgs else imgs ++ [u].

(** The records of a crawl in which [fetch] answers each submission of
    [parse_home] with a detail page: [parse_cert] runs on each answer. *)
Definition crawl_records (open_csv : string → outcome csv.reader) (home : Response)
    (fetch : Request → Response) : list item :=
  requests (parse_home open_csv home) ≫= (λ rq, items (parse_cert (fetch rq))).

(** The image columns of an item, in column order. *)
Definition image_urls (it : item) : list string :=
  omap snd (filter (λ kv, kv.1 ≠ "cert") it).

(** The references of a page, in selector order, and as the loop of
    [parse_cert] resolves them. *)
Definition image_refs (response : Response) : list string :=
  getall (css response sel_hrefs) ++ getall (css response sel_srcs)
  ++ getall (css response sel_direct_srcs).

Definition resolved_refs (response : Response) : list string :=
  response_urljoin response <$> filter (λ u, Py.truthy u) (image_refs response).

(** The column of the image at position [i] (from 0) of the list. *)
Definition image_column (i : nat) : string := "image_" +:+ pretty (i + 1).

(** The extension [save_image] reads off the [Content-Type] header. *)
Definition type_ext (response : Response) : string :=
  let ctype := default EmptyString (headers response !! "Content-Type") in
  default EmptyString (guess_extension (Py.strip (Py.split_head ";" ctype))).

(** Where [save_image] writes the image of [response]. *)
Definition save_path (response : Response) (cert : string) : string :=
  image_path cert (default 0 (m_index (meta response))) (image_ext response).

(** C4 as stated: after [save_image] the final name holds the whole
    payload, or the failure is logged and the final name shows what it
    showed before. *)
Definition saved_all_or_nothing (os : os_calls) (response : Response)
    (disk : gmap string (list Byte.byte)) : Prop :=
  ∀ cert disk',
    save_cert response = Some cert →
    result (save_image os response disk) = Return disk' →
    disk' !! save_path response cert = Some (body response)
    ∨ ((∃ msg, (ERROR, msg) ∈ logs (save_image os response disk))
       ∧ disk' !! save_path response cert = disk !! save_path response cert).

(** What [save_image] does, by what the operating system answers. *)
Definition save_outcome (os : os_calls) (response : Response)
    (disk : gmap string (list Byte.byte)) (cert : string) : Prop :=
  let path := save_path response cert in
  let g := save_image os response disk in
  (* all went well: the payload is under the final name *)
  (os_open os = Return tt ∧ os_write os = Written
   ∧ result g = Return (<[path := body response]> disk)
   ∧ logs g = [(INFO, "Saved image for cert " +:+ cert +:+ ": " +:+ path)])
  (* the directory or the file could not be opened: logged, nothing written *)
  ∨ (∃ e msg, (os_makedirs os = Raise e ∨ os_open os = Raise e)
              ∧ result g = Return disk ∧ logs g = [(ERROR, msg)])
  (* the write failed: logged, and the bytes written stay under the final name *)
  ∨ (∃ n e, os_write os = WriteError n e
            ∧ result g = Return (<[path := take n (body response)]> disk)
            ∧ logs g = [(ERROR, "Failed to save image " +:+ path +:+ ": " +:+ exn_str e)])
  (* [os.makedirs] raised something other than [OSError]: not caught *)
  ∨ (∃ e, os_makedirs os = Raise e ∧ os_errno e = None
          ∧ result g = Raise e ∧ logs g = []).

End Vocabulary.

(** A home page whose form posts the field [certNumber] and has the
    [lookup] button. *)
Definition home_named : Response :=
  Sample.home [Sample.element [("type", "tel"); ("name", "certNumber")]]
    [Sample.element [("method", "post"); ("action", "/certlookup")]] ["certNumber"] true.

(** Two home pages whose form uses GET around the [tel] input named
    [certNumber]: one with nothing to click in the form, and one whose
    submit button is named [go], not [lookup]. *)
Definition home_get_no_button : Response :=
  Sample.home [Sample.element [("type", "tel"); ("name", "certNumber")]]
    [Sample.element [("method", "get"); ("action", "/certlookup")]] ["certNumber"] false.

Definition home_get_other_button : Response :=
  Sample.page [Sample.element [("type", "tel"); ("name", "certNumber")]]
    [Sample.element [("method", "get"); ("action", "/certlookup")]] ["certNumber"]
    [Sample.element [("type", "submit"); ("name", "go")]].

(** A home page without any [tel] input, with or without named inputs in
    its forms. *)
Definition home_no_input (names : list string) : Response :=
  Sample.home [] [] names false.

(** The detail page that answers a submission: it carries the [meta] of
    the request, and shows one image. *)
Definition detail_for (rq : Request) : Response :=
  {| url := rq_url rq; meta := rq_meta rq; headers := ∅; body := [];
     css := λ q, if decide (q = sel_hrefs) then [Sample.text "/img/front.png"] else [];
     xpath := λ _, [];
     response_urljoin := Sample.url_join (rq_url rq) |}.

(** A full disk: the file opens, and the write fails after two bytes. *)
Definition disk_full : os_calls :=
  {| os_makedirs := Return tt; os_open := Return tt;
     os_write := WriteError 2 (OSError 28 "[Errno 28] No space left on device") |}.

(** The response to the download of the first image of a certificate. *)
Definition png_image : Response :=
  Sample.image "https://www.cgccards.com/img/front.png" "1234567890" 1 (Some "image/png")
    [Byte.x89; Byte.x50; Byte.x4e; Byte.x47].

(** * Further vocabulary *)

(** [errback_log]: the failure is logged, by its [repr], and nothing else
    happens. *)
Definition errback_log (failure : string) : gen unit := log ERROR failure.

(** What the loader keeps of a row when it reads the column at position
    [i]: the value there, if the row reaches that far and the value is
    truthy, stripped. *)
Definition kept_value (i : nat) (r : list string) : option string :=
  v ← r !! i; if Py.truthy v then Some (Py.strip v) else None.

(** A string without whitespace at either end. *)
Definition trimmed (s : string) : Prop := Py.lstrip s = s ∧ Py.rstrip s = s.

(** The request [parse_cert] issues for the image at position [i] (from 0)
    of its list. *)
Definition download_request (cert : option string) (i : nat) (u : string) : Request :=
  {| rq_url := u; rq_method := "GET"; rq_body := NoBody;
     rq_callback := cb_save_image; rq_errback := cb_errback_log;
     rq_meta := {| m_cert := Some cert; m_index := Some (i + 1);
                   m_proxy := Some proxy_url; m_formdata := None |};
     rq_dont_filter := true |}.

(** The file name [save_image] gives the image [index]. *)
Definition image_filename (index : nat) (ext : string) : string :=
  "image_" +:+ pretty index +:+ ext.

(** What every request of the spider has: the proxy in its [meta], and
    [errback_log] as its errback. *)
Definition routed (r : Request) : Prop :=
  m_proxy (rq_meta r) = Some proxy_url ∧ rq_errback r = cb_errback_log.

(** A file that cannot be decoded at its third line. *)
Definition broken_file (path : string) : outcome csv.reader :=
  Return [Return ["Cert"]; Return ["1234567890"];
          Raise (Exception "'utf-8' codec can't decode byte 0xff in position 0")].

(** The record [parse_home] logs about the [tel] input it looked for. *)
Definition locator_log (response : Response) : event :=
  if Py.truthy_opt (tel_input_name response) then
    Log INFO ("Found input[type='tel'] name='"
              +:+ default EmptyString (tel_input_name response) +:+ "'")
  else if Py.truthy_opt (tel_input_id response) then
    Log WARNING ("Found input[type='tel'] with id='"
                 +:+ default EmptyString (tel_input_id response)
                 +:+ "' but no name attribute. Will attempt to submit using form action.")
  else
    Log WARNING ("Could not find input[type='tel'] name or id on the page."
                 +:+ " Will attempt fallback submission.").

(** The records [parse_home] logs before it submits [n] certificates. *)
Definition home_prologue (response : Response) (n : nat) : list event :=
  [Log INFO "Fetched homepage, locating telephone input & form...";
   locator_log response;
   Log INFO ("Found " +:+ pretty n +:+ " cert(s) in CSV. Submitting lookups...")].

(** The request of normal mode for [cert], when [from_response] builds
    one. *)
Definition normal_request `{lib : Library} (response : Response) (cert : string)
    : option Request :=
  match from_response response
          [(default EmptyString (tel_input_name response), cert)] [("name", "lookup")] with
  | Return (u, m, b) =>
      Some {| rq_url := u; rq_method := m; rq_body := b;
              rq_callback := cb_parse_cert; rq_errback := cb_errback_log;
              rq_meta := submit_meta cert; rq_dont_filter := true |}
  | Raise _ => None
  end.

(** A home page whose form uses GET around a [tel] input without name. *)
Definition home_get_unnamed : Response :=
  Sample.home [Sample.element [("type", "tel"); ("id", "cert")]]
    [Sample.element [("method", "get"); ("action", "/certlookup")]] [] true.

(** The URLs the download loop gets through: those before the first one a
    request cannot have. *)
Fixpoint accepted_prefix `{lib : Library} (urls : list string) : list string :=
  match urls with
  | [] => []
  | u :: urls => if request_url_ok u then u :: accepted_prefix urls else []
  end.

(** A detail page with three absolute references, the second one a script
    link, which [urljoin] leaves as it is. *)
Definition detail_with_script_link : Response :=
  {| url := "https://www.cgccards.com/certlookup/1234567890/";
     meta := submit_meta "1234567890"; headers := ∅; body := [];
     css := λ q,
       if decide (q = sel_hrefs) then
         Sample.text <$> ["https://www.cgccards.com/img/a.png"; "javascript:void(0)";
                          "https://www.cgccards.com/img/b.png"]
       else [];
     xpath := λ _, [];
     response_urljoin := id |}.

(** The index under which [save_image] files a response. *)
Definition save_index (r : Response) : nat := default 0 (m_index (meta r)).

(** [save_image] called for each of [responses] in turn, each call on the
    file system the one before left. *)
Fixpoint save_all `{lib : Library} (os : os_calls) (responses : list Response)
    (disk : gmap string (list Byte.byte)) : gen (gmap string (list Byte.byte)) :=
  match responses with
  | [] => mret disk
  | r :: responses => d ← save_image os r disk; save_all os responses d
  end.

(** Image responses with unusual [meta]: an identifier that is an absolute
    path, no [meta] at all, and [None] stored under [cert]. *)
Definition image_of_absolute_cert : Response :=
  Sample.image "https://www.cgccards.com/img/front.png" "/tmp/x" 1 (Some "image/png")
    [Byte.x89; Byte.x50].

Definition image_without_meta : Response :=
  {| url := "https://www.cgccards.com/img/front.png"; meta := no_meta;
     headers := ∅; body := [Byte.x89; Byte.x50];
     css := λ _, []; xpath := λ _, []; response_urljoin := id |}.

(** A detail page that came without certificate, with one image. *)
Definition detail_without_cert : Response :=
  {| url := "https://www.cgccards.com/certlookup/"; meta := no_meta;
     headers := ∅; body := [];
     css := λ q, if decide (q = sel_hrefs)
                 then [Sample.text "https://www.cgccards.com/img/a.png"] else [];
     xpath := λ _, [];
     response_urljoin := id |}.

(** The image response that answers a download request: it carries the
    [meta] and the URL of the request; the payload is the URL's text. *)
Definition image_for (rq : Request) : Response :=
  {| url := rq_url rq; meta := rq_meta rq;
     headers := {[ "Content-Type" := "image/png" ]};
     body := String.list_byte_of_string (rq_url rq);
     css := λ _, []; xpath := λ _, []; response_urljoin := id |}.

(** A detail page with two images. *)
Definition detail_with_two_images : Response :=
  Sample.detail "1234567890" ["/img/front.png"; "/img/back"] [] [].

(** * Properties *)

(** ** Runs of the generator monad *)

Section GenLemmas.
Context {A B : Type}.
Implicit Types (g : gen A) (k : A → gen B).

Lemma bind_return g k a :
  g.2 = Return a → g ≫= k = (g.1 ++ (k a).1, (k a).2).
Proof. intros Hg. unfold mbind, gen_bind. by rewrite Hg. Qed.

Lemma bind_raise g k e :
  g.2 = Raise e → g ≫= k = (g.1, Raise e).
Proof. intros Hg. unfold mbind, gen_bind. by rewrite Hg. Qed.

Lemma yields_app (t1 t2 : list event) (r1 r2 : outcome A) (r : outcome B) :
  yields (t1 ++ t2, r) = yields (t1, r1) ++ yields (t2, r2).
Proof. unfold yields. simpl. apply omap_app. Qed.

Lemma requests_bind_return g k a :
  g.2 = Return a → requests (g ≫= k) = requests g ++ requests (k a).
Proof.
  intros Hg. rewrite (bind_return _ _ _ Hg). unfold requests, yields. simpl.
  by rewrite !omap_app.
Qed.

Lemma requests_bind_raise g k e :
  g.2 = Raise e → requests (g ≫= k) = requests g.
Proof. intros Hg. by rewrite (bind_raise _ _ _ Hg). Qed.

Lemma items_bind_return g k a :
  g.2 = Return a → items (g ≫= k) = items g ++ items (k a).
Proof.
  intros Hg. rewrite (bind_return _ _ _ Hg). unfold items, yields. simpl.
  by rewrite !omap_app.
Qed.

Lemma logs_bind_return g k a :
  g.2 = Return a → logs (g ≫= k) = logs g ++ logs (k a).
Proof.
  intros Hg. rewrite (bind_return _ _ _ Hg). unfold logs. simpl. apply omap_app.
Qed.

Lemma result_bind_return g k a :
  g.2 = Return a → result (g ≫= k) = result (k a).
Proof. intros Hg. by rewrite (bind_return _ _ _ Hg). Qed.

End GenLemmas.

(** The keyword lists of the two constructor calls of [_manual_form_submit]. *)
Lemma get_keywords_rejected :
  filter (λ k, k ∉ Request_keywords)
    ["url"; "method"; "callback"; "errback"; "meta"; "dont_filter"; "params"] = ["params"].
Proof. by vm_compute. Qed.

Lemma post_keywords_accepted :
  filter (λ k, k ∉ Request_keywords)
    ["url"; "method"; "callback"; "errback"; "meta"; "dont_filter"] = [].
Proof. by vm_compute. Qed.

Lemma download_keywords_accepted :
  filter (λ k, k ∉ Request_keywords)
    ["url"; "callback"; "errback"; "meta"; "dont_filter"] = [].
Proof. by vm_compute. Qed.

(** ** The loader *)

(** C1 (as the code has it): on the file with header [Cert] and the rows
    [1234567890], two spaces, [2000000555], the loader produces three
    identifiers: the whitespace-only value passes the truth test, which
    comes before the stripping, and is kept as the empty identifier. *)
Theorem load_certs_keeps_whitespace_row :
  load_certs (Sample.csv_file [["Cert"]; ["1234567890"]; ["  "]; ["2000000555"]])
  = Return ["1234567890"; EmptyString; "2000000555"].
Proof. by vm_compute. Qed.

(** ** Fallback submission *)

Section Fallback.
Context `{lib : Library}.

(** The three ways one attempt can go. *)
Lemma manual_attempt_get cert meta target field_name :
  manual_attempt cert "GET" meta target field_name
  = ([attempt_log "GET" target field_name],
     Raise (TypeError "Request.__init__() got an unexpected keyword argument 'params'")).
Proof.
  unfold manual_attempt, new_Request. rewrite get_keywords_rejected.
  rewrite decide_True by done. reflexivity.
Qed.

Lemma manual_attempt_post cert form_method meta target field_name :
  form_method ≠ "GET" →
  request_url_ok target = true →
  manual_attempt cert form_method meta target field_name
  = ([attempt_log form_method target field_name;
      Yield (Req (post_request cert meta target field_name))],
     Return Break).
Proof.
  intros Hm Hok. unfold manual_attempt, new_Request. rewrite post_keywords_accepted.
  rewrite decide_False by done. simpl. rewrite Hok. reflexivity.
Qed.

Lemma manual_attempt_post_bad_url cert form_method meta target field_name :
  form_method ≠ "GET" →
  request_url_ok target = false →
  manual_attempt cert form_method meta target field_name
  = ([attempt_log form_method target field_name],
     Raise (ValueError ("Missing scheme in request url: " +:+ target))).
Proof.
  intros Hm Hok. unfold manual_attempt, new_Request. rewrite post_keywords_accepted.
  rewrite decide_False by done. simpl. rewrite Hok. reflexivity.
Qed.

Lemma candidate_field_names_cons response :
  ∃ first rest, candidate_field_names response = first :: rest.
Proof.
  unfold candidate_field_names.
  destruct (getall (css response sel_form_input_names)); simpl; eauto.
Qed.

Lemma manual_submit_get cert form_action meta response first rest :
  candidate_field_names response = first :: rest →
  _manual_form_submit cert form_action "GET" meta response
  = ([attempt_log "GET" (submit_target form_action response) first],
     Raise (TypeError "Request.__init__() got an unexpected keyword argument 'params'")).
Proof.
  intros Hc. unfold _manual_form_submit. rewrite Hc. cbn [for_break].
  by rewrite manual_attempt_get.
Qed.

Lemma manual_submit_post cert form_action form_method meta response first rest :
  candidate_field_names response = first :: rest →
  form_method ≠ "GET" →
  request_url_ok (submit_target form_action response) = true →
  _manual_form_submit cert form_action form_method meta response
  = ([attempt_log form_method (submit_target form_action response) first;
      Yield (Req (post_request cert meta (submit_target form_action response) first))],
     Return tt).
Proof.
  intros Hc Hm Hok. unfold _manual_form_submit. rewrite Hc. cbn [for_break].
  by rewrite manual_attempt_post.
Qed.

Lemma manual_submit_post_bad_url cert form_action form_method meta response first rest :
  candidate_field_names response = first :: rest →
  form_method ≠ "GET" →
  request_url_ok (submit_target form_action response) = false →
  _manual_form_submit cert form_action form_method meta response
  = ([attempt_log form_method (submit_target form_action response) first],
     Raise (ValueError ("Missing scheme in request url: "
                        +:+ submit_target form_action response))).
Proof.
  intros Hc Hm Hok. unfold _manual_form_submit. rewrite Hc. cbn [for_break].
  by rewrite manual_attempt_post_bad_url.
Qed.

(** C2: in fallback mode the candidates are the observed input names, in
    document order, followed by the six fixed guesses; one attempt is
    made, with the first candidate of that list, and never a second one:
    at most one request leaves, and it carries the first candidate mapped
    to the certificate; it is exactly one when the method is not GET and
    the target is a URL a request can have. *)
Theorem fallback_first_candidate_only cert form_action form_method meta response :
  let found_names := getall (css response sel_form_input_names) in
  let g := _manual_form_submit cert form_action form_method meta response in
  candidate_field_names response
    = found_names ++ ["cert"; "certificate"; "serial"; "lookup"; "search"; "q"]
  ∧ ∃ first,
      head (candidate_field_names response) = Some first
      ∧ first = default "cert" (head found_names)
      ∧ logs g = [(INFO, "Attempting manual " +:+ form_method +:+ " to "
                         +:+ submit_target form_action response
                         +:+ " with field '" +:+ first +:+ "'")]
      ∧ length (requests g) ≤ 1
      ∧ Forall (λ r, rq_body r = FormEncoded [(first, cert)]
                     ∧ m_cert (rq_meta r) = m_cert meta) (requests g)
      ∧ (form_method ≠ "GET" →
         request_url_ok (submit_target form_action response) = true →
         length (requests g) = 1).
Proof.
  intros found_names g. split; [done|].
  destruct (candidate_field_names_cons response) as (first & rest & Hc).
  exists first. split; [by rewrite Hc|].
  split.
  { unfold candidate_field_names in Hc. subst found_names.
    destruct (getall (css response sel_form_input_names));
      unfold fixed_field_names in Hc; simpl in *; congruence. }
  subst g. destruct (decide (form_method = "GET")) as [->|Hm].
  - rewrite (manual_submit_get _ _ _ _ _ _ Hc).
    split; [done|]. split; [simpl; lia|]. split; [constructor|]. by intros [].
  - destruct (request_url_ok (submit_target form_action response)) eqn:Hok.
    + rewrite (manual_submit_post _ _ _ _ _ _ _ Hc Hm Hok).
      split; [done|]. split; [simpl; lia|]. split; [by repeat constructor|done].
    + rewrite (manual_submit_post_bad_url _ _ _ _ _ _ _ Hc Hm Hok).
      split; [done|]. split; [simpl; lia|]. split; [constructor|]. by intros _ [=].
Qed.

(** C3 (as the code has it): when the recorded method is GET, fallback
    mode sends nothing.  The request is built with a [params] keyword that
    [scrapy.Request] does not take, so its construction raises
    [TypeError]: no request is yielded, with or without a query
    parameter, and the exception leaves the generator. *)
Theorem fallback_get_sends_nothing cert form_action meta response :
  let g := _manual_form_submit cert form_action "GET" meta response in
  yields g = []
  ∧ result g
    = Raise (TypeError "Request.__init__() got an unexpected keyword argument 'params'").
Proof.
  intros g. subst g.
  destruct (candidate_field_names_cons response) as (first & rest & Hc).
  by rewrite (manual_submit_get _ _ _ _ _ _ Hc).
Qed.

(** The POST half of C3, which the code does: the field is the
    form-encoded body of the one request. *)
Lemma fallback_post_sends_body cert form_action form_method meta response :
  form_method ≠ "GET" →
  request_url_ok (submit_target form_action response) = true →
  ∃ first,
    head (candidate_field_names response) = Some first
    ∧ requests (_manual_form_submit cert form_action form_method meta response)
      = [post_request cert meta (submit_target form_action response) first].
Proof.
  intros Hm Hok.
  destruct (candidate_field_names_cons response) as (first & rest & Hc).
  exists first. split; [by rewrite Hc|].
  by rewrite (manual_submit_post _ _ _ _ _ _ _ Hc Hm Hok).
Qed.

End Fallback.

(** ** The submission loop *)

Section ForEach.
Context {A : Type}.
Implicit Types (l : list A) (f : A → gen unit).

Lemma for_each_cons_return x l f :
  result (f x) = Return tt →
  requests (for_each (x :: l) f) = requests (f x) ++ requests (for_each l f)
  ∧ result (for_each (x :: l) f) = result (for_each l f).
Proof.
  intros Hx. cbn [for_each]. split.
  - exact (requests_bind_return (f x) (λ _, for_each l f) tt Hx).
  - exact (result_bind_return (f x) (λ _, for_each l f) tt Hx).
Qed.

Lemma for_each_cons_raise x l f e :
  result (f x) = Raise e →
  requests (for_each (x :: l) f) = requests (f x)
  ∧ result (for_each (x :: l) f) = Raise e.
Proof.
  intros Hx. cbn [for_each]. rewrite (bind_raise _ _ _ Hx). done.
Qed.

Lemma for_each_requests_Forall (P : Request → Prop) l f :
  (∀ x, x ∈ l → Forall P (requests (f x))) →
  Forall P (requests (for_each l f)).
Proof.
  induction l as [|x l IH]; intros Hf; [constructor|].
  destruct (result (f x)) as [[]|e] eqn:Hx.
  - destruct (for_each_cons_return x l f Hx) as [-> _].
    apply Forall_app. split; [apply Hf; left|].
    apply IH. intros y Hy. apply Hf. by right.
  - destruct (for_each_cons_raise x l f e Hx) as [-> _]. apply Hf. left.
Qed.

Lemma for_each_returned l f :
  result (for_each l f) = Return tt →
  Forall (λ x, result (f x) = Return tt) l
  ∧ requests (for_each l f) = l ≫= (λ x, requests (f x)).
Proof.
  induction l as [|x l IH]; intros Hr; [by split|].
  destruct (result (f x)) as [[]|e] eqn:Hx.
  - destruct (for_each_cons_return x l f Hx) as [Hq Hres].
    rewrite Hres in Hr. destruct (IH Hr) as [Hall Hreq].
    split; [by constructor|]. rewrite Hq, Hreq. done.
  - destruct (for_each_cons_raise x l f e Hx) as [_ Hres]. congruence.
Qed.

End ForEach.

Section Submitter.
Context `{lib : Library}.

(** One fallback submission either ends in an exception with nothing
    sent, or sends exactly one POST request and returns. *)
Lemma manual_submit_cases cert form_action form_method meta response :
  let g := _manual_form_submit cert form_action form_method meta response in
  (requests g = [] ∧ ∃ e, result g = Raise e)
  ∨ (∃ first, requests g = [post_request cert meta (submit_target form_action response) first]
              ∧ result g = Return tt).
Proof.
  intros g. subst g.
  destruct (candidate_field_names_cons response) as (first & rest & Hc).
  destruct (decide (form_method = "GET")) as [->|Hm].
  - left. rewrite (manual_submit_get _ _ _ _ _ _ Hc). eauto.
  - destruct (request_url_ok (submit_target form_action response)) eqn:Hok.
    + right. rewrite (manual_submit_post _ _ _ _ _ _ _ Hc Hm Hok). eauto.
    + left. rewrite (manual_submit_post_bad_url _ _ _ _ _ _ _ Hc Hm Hok). eauto.
Qed.

(** Normal mode failing: the warning, then the fallback submission of the
    same certificate. *)
Lemma submit_cert_falls_back response input_name form_action form_method cert e :
  Py.truthy_opt input_name = true →
  from_response response [(default EmptyString input_name, cert)] [("name", "lookup")] = Raise e →
  submit_cert response input_name form_action form_method cert
  = (log WARNING ("FormRequest.from_response failed: " +:+ exn_str e
                  +:+ ". Falling back to manual form POST.") ;;
     _manual_form_submit cert form_action form_method (submit_meta cert) response).
Proof. intros Hn He. unfold submit_cert. by rewrite Hn, He. Qed.

(** The submission of one certificate either ends in an exception with
    nothing sent, or sends exactly one request and returns; the request
    carries the certificate and is exempt from duplicate filtering. *)
Lemma submit_cert_cases response input_name form_action form_method cert :
  let g := submit_cert response input_name form_action form_method cert in
  (requests g = [] ∧ ∃ e, result g = Raise e)
  ∨ (∃ r, requests g = [r] ∧ result g = Return tt
          ∧ cert_of r = Some (Some cert) ∧ rq_dont_filter r = true
          ∧ rq_callback r = cb_parse_cert).
Proof.
  intros g. subst g. unfold submit_cert. fold (submit_meta cert).
  pose proof (manual_submit_cases cert form_action form_method (submit_meta cert) response) as Hm.
  cbv zeta in Hm.
  destruct (Py.truthy_opt input_name).
  - destruct (from_response _ _ _) as [[[u m] b]|e].
    + right. eexists. by repeat split.
    + destruct Hm as [[Hq [e' He']]|[first [Hq Hr]]].
      * left. rewrite requests_bind_return with (a := tt) by done.
        rewrite result_bind_return with (a := tt) by done. simpl. rewrite Hq. eauto.
      * right. rewrite requests_bind_return with (a := tt) by done.
        rewrite result_bind_return with (a := tt) by done. rewrite Hq, Hr.
        eexists. by repeat split.
  - destruct Hm as [[Hq [e' He']]|[first [Hq Hr]]].
    + left. eauto.
    + right. rewrite Hq, Hr. eexists. by repeat split.
Qed.

End Submitter.

(** ** parse_home *)

Section LogLemmas.
Context {B : Type}.
Implicit Types (k : gen B).

Lemma yields_log_bind l msg k : yields (log l msg ;; k) = yields k.
Proof. reflexivity. Qed.

Lemma requests_log_bind l msg k : requests (log l msg ;; k) = requests k.
Proof. reflexivity. Qed.

Lemma items_log_bind l msg k : items (log l msg ;; k) = items k.
Proof. reflexivity. Qed.

Lemma result_log_bind l msg k : result (log l msg ;; k) = result k.
Proof. reflexivity. Qed.

Lemma logs_log_bind l msg k : logs (log l msg ;; k) = (l, msg) :: logs k.
Proof. reflexivity. Qed.

End LogLemmas.

Section ParseHome.
Context `{lib : Library}.

Lemma parse_home_stopped open_csv response msg :
  stop_message (load_certs open_csv) = Some msg →
  let g := parse_home open_csv response in
  yields g = [] ∧ result g = Return tt ∧ last (logs g) = Some (ERROR, msg).
Proof.
  intros Hmsg g. subst g. unfold parse_home.
  rewrite yields_log_bind, result_log_bind, logs_log_bind.
  destruct (Py.truthy_opt (tel_input_name response));
    [|destruct (Py.truthy_opt (tel_input_id response))];
    rewrite yields_log_bind, result_log_bind, logs_log_bind;
    (destruct (load_certs open_csv) as [[|c cs]|[]]; simpl in Hmsg;
     simplify_eq; done).
Qed.

Lemma parse_home_loaded open_csv response c cs :
  load_certs open_csv = Return (c :: cs) →
  let g := parse_home open_csv response in
  requests g = requests (submission_loop response (c :: cs))
  ∧ result g = result (submission_loop response (c :: cs)).
Proof.
  intros Hload g. subst g. unfold parse_home, submission_loop.
  rewrite requests_log_bind, result_log_bind, Hload.
  destruct (Py.truthy_opt (tel_input_name response));
    [|destruct (Py.truthy_opt (tel_input_id response))];
    rewrite requests_log_bind, result_log_bind;
    by rewrite requests_log_bind, result_log_bind.
Qed.

(** When the loop runs to its end, every certificate of the list got
    exactly one request, in the order of the list. *)
Lemma submission_loop_returned response certs :
  result (submission_loop response certs) = Return tt →
  cert_of <$> requests (submission_loop response certs) = (Some ∘ Some) <$> certs.
Proof.
  unfold submission_loop. intros Hr.
  destruct (for_each_returned _ _ Hr) as [Hall ->]. clear Hr.
  induction Hall as [|c cs Hc _ IH]; [done|].
  cbn [mbind list_bind]. rewrite fmap_app, IH, fmap_cons.
  destruct (submit_cert_cases response (tel_input_name response) (tel_form_action response)
              (tel_form_method response) c) as [[_ [e He]]|(r & -> & _ & Hcert & _)].
  - congruence.
  - simpl. by rewrite Hcert.
Qed.

Lemma submission_loop_requests response certs :
  Forall (λ r, (∃ c, c ∈ certs ∧ cert_of r = Some (Some c))
               ∧ rq_dont_filter r = true ∧ rq_callback r = cb_parse_cert)
         (requests (submission_loop response certs)).
Proof.
  unfold submission_loop. apply for_each_requests_Forall. intros c Hc.
  destruct (submit_cert_cases response (tel_input_name response) (tel_form_action response)
              (tel_form_method response) c) as [[-> _]|(r & -> & _ & Hcert & Hdf & Hcb)].
  - constructor.
  - repeat constructor; eauto.
Qed.

(** The requests of [parse_home] are one per certificate, in order, when
    it returns; each is exempt from duplicate filtering. *)
Lemma parse_home_returned open_csv response certs :
  load_certs open_csv = Return certs →
  result (parse_home open_csv response) = Return tt →
  cert_of <$> requests (parse_home open_csv response) = (Some ∘ Some) <$> certs.
Proof.
  intros Hload Hr. destruct certs as [|c cs].
  - destruct (parse_home_stopped open_csv response "No certs found in CSV - nothing to do.")
      as (Hy & _); [by rewrite Hload|].
    unfold requests. by rewrite Hy.
  - destruct (parse_home_loaded open_csv response c cs Hload) as [-> Hres].
    apply submission_loop_returned. by rewrite <- Hres.
Qed.

Lemma parse_home_requests open_csv response :
  Forall (λ r, rq_dont_filter r = true ∧ rq_callback r = cb_parse_cert)
         (requests (parse_home open_csv response)).
Proof.
  destruct (load_certs open_csv) as [[|c cs]|e] eqn:Hload.
  - destruct (parse_home_stopped open_csv response "No certs found in CSV - nothing to do.")
      as (Hy & _); [by rewrite Hload|].
    unfold requests. rewrite Hy. constructor.
  - destruct (parse_home_loaded open_csv response c cs Hload) as [Hq _].
    rewrite Hq. eapply Forall_impl; [apply submission_loop_requests|].
    intros r (_ & Hd & Hc). by split.
  - assert (∃ msg, stop_message (load_certs open_csv) = Some msg) as [msg Hmsg].
    { rewrite Hload. destruct e; simpl; eauto. }
    destruct (parse_home_stopped open_csv response msg Hmsg) as (Hy & _).
    unfold requests. rewrite Hy. constructor.
Qed.

(** What the failure of normal mode leads to when the fallback can send. *)
Lemma submit_cert_falls_back_post response input_name form_action form_method cert e :
  Py.truthy_opt input_name = true →
  from_response response [(default EmptyString input_name, cert)] [("name", "lookup")] = Raise e →
  form_method ≠ "GET" →
  request_url_ok (submit_target form_action response) = true →
  ∃ first,
    head (candidate_field_names response) = Some first
    ∧ submit_cert response input_name form_action form_method cert
      = ([Log WARNING ("FormRequest.from_response failed: " +:+ exn_str e
                       +:+ ". Falling back to manual form POST.");
          attempt_log form_method (submit_target form_action response) first;
          Yield (Req (post_request cert (submit_meta cert)
                        (submit_target form_action response) first))],
         Return tt).
Proof.
  intros Hn He Hm Hok.
  destruct (candidate_field_names_cons response) as (first & rest & Hc).
  exists first. split; [by rewrite Hc|].
  rewrite (submit_cert_falls_back _ _ _ _ _ _ Hn He).
  by rewrite (manual_submit_post _ _ _ _ _ _ _ Hc Hm Hok).
Qed.

(** C8, amended: [parse_home] returns without having yielded anything
    exactly when the input could not be loaded or gave no certificate; it
    then ends on the matching error record.  Every failure to load is such
    a stop. *)
Theorem run_stops_on_input_failure_or_no_certs open_csv response :
  let g := parse_home open_csv response in
  (yields g = [] ∧ result g = Return tt ↔ is_Some (stop_message (load_certs open_csv)))
  ∧ (∀ msg, stop_message (load_certs open_csv) = Some msg →
            last (logs g) = Some (ERROR, msg))
  ∧ (∀ e, load_certs open_csv = Raise e → is_Some (stop_message (load_certs open_csv))).
Proof.
  intros g. subst g. split; [split|split].
  - intros [Hy Hr]. destruct (load_certs open_csv) as [[|c cs]|e] eqn:Hload.
    + by eexists.
    + pose proof (parse_home_returned open_csv response (c :: cs) Hload Hr) as Hc.
      unfold requests in Hc. rewrite Hy in Hc. done.
    + destruct e; by eexists.
  - intros [msg Hmsg]. by destruct (parse_home_stopped open_csv response msg Hmsg) as (? & ? & _).
  - intros msg Hmsg. by destruct (parse_home_stopped open_csv response msg Hmsg) as (_ & _ & ?).
  - intros e ->. destruct e; by eexists.
Qed.

(** What C7 runs into, in general: the method is GET and normal mode fails
    for the first certificate.  The fallback raises, and [parse_home] ends
    there, whatever certificates follow. *)
Lemma normal_mode_failure_on_get open_csv response c cs e :
  load_certs open_csv = Return (c :: cs) →
  Py.truthy_opt (tel_input_name response) = true →
  tel_form_method response = "GET" →
  from_response response [(default EmptyString (tel_input_name response), c)]
    [("name", "lookup")] = Raise e →
  requests (parse_home open_csv response) = []
  ∧ result (parse_home open_csv response)
    = Raise (TypeError "Request.__init__() got an unexpected keyword argument 'params'").
Proof.
  intros Hload Hname Hget He.
  destruct (parse_home_loaded open_csv response c cs Hload) as [-> ->].
  unfold submission_loop.
  destruct (candidate_field_names_cons response) as (first & rest & Hc).
  assert (submit_cert response (tel_input_name response) (tel_form_action response)
            (tel_form_method response) c
          = ([Log WARNING ("FormRequest.from_response failed: " +:+ exn_str e
                           +:+ ". Falling back to manual form POST.");
              attempt_log "GET" (submit_target (tel_form_action response) response) first],
             Raise (TypeError "Request.__init__() got an unexpected keyword argument 'params'")))
    as Hsub.
  { rewrite (submit_cert_falls_back _ _ _ _ _ _ Hname He), Hget.
    by rewrite (manual_submit_get _ _ _ _ _ _ Hc). }
  destruct (for_each_cons_raise c cs
              (submit_cert response (tel_input_name response) (tel_form_action response)
                 (tel_form_method response)) _ (f_equal snd Hsub)) as [-> ->].
  by rewrite Hsub.
Qed.

(** The same end when the [tel] input has no usable name: the fallback is
    entered at once, and its GET request cannot be built. *)
Lemma fallback_on_get open_csv response c cs :
  load_certs open_csv = Return (c :: cs) →
  Py.truthy_opt (tel_input_name response) = false →
  tel_form_method response = "GET" →
  requests (parse_home open_csv response) = []
  ∧ result (parse_home open_csv response)
    = Raise (TypeError "Request.__init__() got an unexpected keyword argument 'params'").
Proof.
  intros Hload Hname Hget.
  destruct (parse_home_loaded open_csv response c cs Hload) as [-> ->].
  unfold submission_loop.
  destruct (candidate_field_names_cons response) as (first & rest & Hc).
  assert (submit_cert response (tel_input_name response) (tel_form_action response)
            (tel_form_method response) c
          = ([attempt_log "GET" (submit_target (tel_form_action response) response) first],
             Raise (TypeError "Request.__init__() got an unexpected keyword argument 'params'")))
    as Hsub.
  { unfold submit_cert. rewrite Hname, Hget. by apply (manual_submit_get _ _ _ _ _ rest). }
  destruct (for_each_cons_raise c cs
              (submit_cert response (tel_input_name response) (tel_form_action response)
                 (tel_form_method response)) _ (f_equal snd Hsub)) as [-> ->].
  by rewrite Hsub.
Qed.

End ParseHome.

(** C7 (as the code has it): the form uses GET and its submit button is
    not the one the spider clicks, so building the normal-mode submission
    fails for the first of two certificates.  The warning is logged and
    the fallback is entered for that certificate, but building its request
    raises [TypeError], which ends [parse_home]: nothing is submitted for
    the first certificate, and the second one is never reached. *)
Theorem normal_mode_failure_ends_run_on_get :
  parse_home (lib := Sample.library)
    (Sample.csv_file [["Cert"]; ["1234567890"]; ["2000000555"]]) home_get_other_button
  = ([Log INFO "Fetched homepage, locating telephone input & form...";
      Log INFO "Found input[type='tel'] name='certNumber'";
      Log INFO "Found 2 cert(s) in CSV. Submitting lookups...";
      Log WARNING ("FormRequest.from_response failed: No clickable element matching clickdata:"
                   +:+ " {'name': 'lookup'}. Falling back to manual form POST.");
      Log INFO "Attempting manual GET to https://www.cgccards.com/certlookup with field 'certNumber'"],
     Raise (TypeError "Request.__init__() got an unexpected keyword argument 'params'")).
Proof. by vm_compute. Qed.

(** C8 fails as stated: a file with the header and no row loads without
    error, yet [parse_home] stops before any submission. *)
Lemma header_only_file_stops_the_run :
  ¬ stops_only_on_input_failure (lib := Sample.library) (Sample.csv_file [["Cert"]]) home_named.
Proof.
  unfold stops_only_on_input_failure. intros Hclaim.
  destruct Hclaim as [e He]; [by vm_compute|]. vm_compute in He. discriminate.
Qed.

(** ** The extractor *)

Section FirstOccurrences.
Implicit Types (l acc : list string).

Lemma first_occurrences_elem l y : y ∈ first_occurrences l ↔ y ∈ l.
Proof.
  induction l as [|x l IH]; simpl; [done|].
  rewrite !elem_of_cons, list_elem_of_filter, IH.
  destruct (decide (y = x)); naive_solver.
Qed.

Lemma first_occurrences_NoDup l : NoDup (first_occurrences l).
Proof.
  induction l as [|x l IH]; simpl; constructor.
  - rewrite list_elem_of_filter. naive_solver.
  - by apply NoDup_filter.
Qed.

Lemma first_occurrences_sublist l : first_occurrences l `sublist_of` l.
Proof.
  induction l as [|x l IH]; simpl; [done|].
  apply sublist_skip. etrans; [apply sublist_filter|]; done.
Qed.

Lemma foldl_add_new acc l :
  foldl add_new acc l = acc ++ filter (λ y, y ∉ acc) (first_occurrences l).
Proof.
  revert acc. induction l as [|x l IH]; intros acc; simpl.
  { by rewrite app_nil_r. }
  rewrite IH. unfold add_new. case_bool_decide as Hx.
  - rewrite filter_cons_False by naive_solver. f_equal.
    rewrite list_filter_filter. apply list_filter_iff. intros y. naive_solver.
  - rewrite filter_cons_True by done. rewrite <- app_assoc. simpl. do 2 f_equal.
    rewrite list_filter_filter. apply list_filter_iff. intros y.
    rewrite elem_of_app, list_elem_of_singleton. naive_solver.
Qed.

Lemma foldl_add_new_nil l : foldl add_new [] l = first_occurrences l.
Proof.
  rewrite foldl_add_new. simpl.
  induction (first_occurrences l) as [|y k IH]; [done|].
  rewrite filter_cons_True by apply not_elem_of_nil. by rewrite IH.
Qed.

End FirstOccurrences.

Section Extractor.
Context `{lib : Library}.

Lemma collect_loop_resolved response acc refs :
  foldl (λ imgs u,
           if negb (Py.truthy u) then imgs
           else
             let u := response_urljoin response u in
             if bool_decide (u ∈ imgs) then imgs else imgs ++ [u]) acc refs
  = foldl add_new acc (response_urljoin response <$> filter (λ u, Py.truthy u) refs).
Proof.
  revert acc. induction refs as [|u refs IH]; intros acc; [done|].
  cbn [foldl]. rewrite IH. destruct (Py.truthy u) eqn:Hu; simpl.
  - rewrite filter_cons_True by (by apply Is_true_true). done.
  - rewrite filter_cons_False by (by apply Is_true_false). done.
Qed.

Lemma collect_images_eq response :
  collect_images response = first_occurrences (resolved_refs response).
Proof.
  unfold collect_images, resolved_refs, image_refs.
  by rewrite collect_loop_resolved, foldl_add_new_nil.
Qed.

Lemma image_column_inj i j : image_column i = image_column j → i = j.
Proof.
  unfold image_column. intros Heq. apply (inj (String.app "image_")) in Heq.
  apply (inj pretty) in Heq. lia.
Qed.

Lemma image_column_not_cert i : image_column i ≠ "cert".
Proof. unfold image_column. intros Heq. discriminate Heq. Qed.

Lemma dict_set_fresh {V} k (v : V) d : k ∉ d.*1 → dict_set k v d = d ++ [(k, v)].
Proof. intros Hk. unfold dict_set. by rewrite bool_decide_eq_false_2. Qed.

Lemma build_item_loop (imgs : list string) n (acc : item) :
  (∀ i, n ≤ i → image_column i ∉ acc.*1) →
  foldl (λ it p, dict_set ("image_" +:+ pretty (p.1 + 1)) (Some p.2) it)
        acc (imap (λ i, pair (n + i)) imgs)
  = acc ++ imap (λ i u, (image_column (n + i), Some u)) imgs.
Proof.
  revert n acc. induction imgs as [|u imgs IH]; intros n acc Hfresh; simpl.
  { by rewrite app_nil_r. }
  fold (image_column (n + 0)).
  rewrite dict_set_fresh by (apply Hfresh; lia).
  rewrite (imap_ext _ (λ i, pair (S n + i))) by (intros; simpl; f_equal; lia).
  rewrite IH.
  - rewrite <- app_assoc. simpl. do 2 f_equal.
    apply imap_ext. intros i x _. simpl. do 2 f_equal. lia.
  - intros i Hi. rewrite fmap_app, elem_of_app. intros [Hin|Hin].
    + by apply (Hfresh i); [lia|].
    + simpl in Hin. apply list_elem_of_singleton in Hin.
      apply image_column_inj in Hin. lia.
Qed.

(** The item is the certificate followed by the images as columns
    [image_1], [image_2], ... *)
Lemma build_item_eq cert imgs :
  build_item cert imgs
  = ("cert", cert) :: imap (λ i u, (image_column i, Some u)) imgs.
Proof.
  unfold build_item.
  rewrite (imap_ext pair (λ i, pair (0 + i)) imgs) by done.
  rewrite build_item_loop; [done|].
  intros i _. simpl. intros Hin. apply list_elem_of_singleton in Hin.
  by apply image_column_not_cert in Hin.
Qed.

Lemma image_urls_columns (imgs : list string) n :
  omap snd (filter (λ kv : string * option string, kv.1 ≠ "cert")
              (imap (λ i u, (image_column (n + i), Some u)) imgs)) = imgs.
Proof.
  revert n. induction imgs as [|u imgs IH]; intros n; [done|].
  cbn [imap]. rewrite filter_cons_True by (simpl; apply image_column_not_cert).
  cbn [omap list_omap snd]. f_equal.
  rewrite <- (IH (S n)) at 2. do 2 f_equal.
  apply imap_ext. intros i x _. simpl. do 2 f_equal. lia.
Qed.

Lemma image_urls_build_item cert imgs : image_urls (build_item cert imgs) = imgs.
Proof.
  rewrite build_item_eq. unfold image_urls.
  rewrite filter_cons_False by (simpl; intros Hne; by apply Hne).
  exact (image_urls_columns imgs 0).
Qed.

End Extractor.

Section ParseCert.
Context `{lib : Library}.

Lemma items_yield_item_bind {B} it (k : gen B) :
  items (yield (Item it) ;; k) = it :: items k.
Proof. reflexivity. Qed.

Lemma requests_yield_item_bind {B} it (k : gen B) :
  requests (yield (Item it) ;; k) = requests k.
Proof. reflexivity. Qed.

Lemma download_image_cases cert p :
  (download_image cert p
   = ([Yield (Req {| rq_url := p.2; rq_method := "GET"; rq_body := NoBody;
                     rq_callback := cb_save_image; rq_errback := cb_errback_log;
                     rq_meta := {| m_cert := Some cert; m_index := Some (p.1 + 1);
                                   m_proxy := Some proxy_url; m_formdata := None |};
                     rq_dont_filter := true |})], Return tt))
  ∨ (download_image cert p
     = ([], Raise (ValueError ("Missing scheme in request url: " +:+ p.2)))).
Proof.
  unfold download_image, new_Request. rewrite download_keywords_accepted. simpl.
  destruct (request_url_ok p.2); [by left|by right].
Qed.

Lemma for_each_items_nil {A} (l : list A) (f : A → gen unit) :
  (∀ x, items (f x) = []) → items (for_each l f) = [].
Proof.
  intros Hf. induction l as [|x l IH]; [done|]. cbn [for_each].
  destruct ((f x).2) as [[]|e] eqn:Hx.
  - rewrite (items_bind_return (f x) (λ _, for_each l f) tt Hx). by rewrite Hf, IH.
  - rewrite (bind_raise (f x) (λ _, for_each l f) e Hx). apply Hf.
Qed.

Lemma download_loop_items cert (ps : list (nat * string)) :
  items (for_each ps (download_image cert)) = [].
Proof.
  apply for_each_items_nil. intros p.
  by destruct (download_image_cases cert p) as [-> | ->].
Qed.

(** The item of a page comes first and is the only one, whatever happens
    to the download requests after it. *)
Lemma parse_cert_items response :
  items (parse_cert response)
  = [build_item (mjoin (m_cert (meta response))) (collect_images response)].
Proof.
  unfold parse_cert. rewrite items_log_bind.
  assert (∀ (g : gen unit) k, (∃ l m, g = log l m) →
            items (g ;; yield (Item k) ;; for_each (imap pair (collect_images response))
                     (download_image (mjoin (m_cert (meta response))))) = [k]) as Hgen.
  { intros g k (l & m & ->). by rewrite items_log_bind, items_yield_item_bind, download_loop_items. }
  apply Hgen. destruct (collect_images response); eauto.
Qed.

Lemma parse_cert_requests response :
  Forall (λ r, rq_dont_filter r = true ∧ rq_callback r = cb_save_image
               ∧ cert_of r = Some (mjoin (m_cert (meta response))))
         (requests (parse_cert response)).
Proof.
  unfold parse_cert. rewrite requests_log_bind.
  assert (∀ (g : gen unit) k (K : gen unit), (∃ l m, g = log l m) →
            requests (g ;; yield (Item k) ;; K) = requests K) as Hgen.
  { intros g k K (l & m & ->). by rewrite requests_log_bind, requests_yield_item_bind. }
  rewrite Hgen by (destruct (collect_images response); eauto).
  apply for_each_requests_Forall. intros p _.
  destruct (download_image_cases (mjoin (m_cert (meta response))) p) as [-> | ->];
    by repeat constructor.
Qed.

Lemma crawl_records_certs (subs : list Request) (certs : list string)
    (fetch : Request → Response) :
  cert_of <$> subs = (Some ∘ Some) <$> certs →
  (∀ rq, meta (fetch rq) = rq_meta rq) →
  head <$> (subs ≫= (λ rq, items (parse_cert (fetch rq))))
  = (λ c, Some ("cert", Some c)) <$> certs.
Proof.
  intros Hc Hmeta. revert certs Hc.
  induction subs as [|rq subs IH]; intros [|c cs] Hc; try discriminate Hc; [done|].
  rewrite !fmap_cons in Hc. injection Hc as Hrq Hrest.
  cbn [mbind list_bind]. rewrite parse_cert_items, build_item_eq.
  cbn [app]. rewrite !fmap_cons. cbn [head].
  rewrite Hmeta. fold (cert_of rq). rewrite Hrq. cbn [mjoin option_join].
  f_equal. by apply IH.
Qed.

(** One record per submission, whatever the pages that answer show. *)
Lemma crawl_records_length (subs : list Request) (fetch : Request → Response) :
  length (subs ≫= (λ rq, items (parse_cert (fetch rq)))) = length subs.
Proof.
  induction subs as [|rq subs IH]; [done|].
  cbn [mbind list_bind]. by rewrite length_app, parse_cert_items, IH.
Qed.

(** A run of [parse_home] that completes has issued as many submissions as
    identifiers were loaded, and the crawl emits as many records. *)
Lemma completed_run_counts open_csv home certs (fetch : Request → Response) :
  load_certs open_csv = Return certs →
  result (parse_home open_csv home) = Return tt →
  length (requests (parse_home open_csv home)) = length certs
  ∧ length (crawl_records open_csv home fetch) = length certs.
Proof.
  intros Hload Hret.
  pose proof (f_equal length (parse_home_returned open_csv home certs Hload Hret)) as Hlen.
  rewrite !length_fmap in Hlen.
  split; [done|]. unfold crawl_records. by rewrite crawl_records_length.
Qed.

(** What [parse_cert] does with a detail page: it gives exactly one
    record, keyed by the certificate of the response, with the image URLs
    as the columns [image_1], [image_2], ...  When no image is found the
    record is still emitted, with the certificate alone; the page is
    logged at INFO level and the callback returns normally.  So a crawl in
    which [parse_home] runs to its end and every submission is answered
    emits one record per loaded certificate, in the order of the list. *)
Lemma one_record_per_detail_page response :
  let cert := mjoin (m_cert (meta response)) in
  let imgs := collect_images response in
  items (parse_cert response)
    = [("cert", cert) :: imap (λ i u, ("image_" +:+ pretty (i + 1), Some u)) imgs]
  ∧ (imgs = [] →
     parse_cert response
     = ([Log INFO ("Parsing detail page for cert " +:+ default "None" cert
                   +:+ " (URL: " +:+ url response +:+ ")");
         Log INFO ("No images found for cert " +:+ default "None" cert +:+ ".");
         Yield (Item [("cert", cert)])],
        Return tt))
  ∧ (∀ open_csv home certs fetch,
       load_certs open_csv = Return certs →
       result (parse_home open_csv home) = Return tt →
       (∀ rq, meta (fetch rq) = rq_meta rq) →
       head <$> crawl_records open_csv home fetch
       = (λ c, Some ("cert", Some c)) <$> certs).
Proof.
  intros cert imgs. split; [|split].
  - rewrite parse_cert_items. by rewrite build_item_eq.
  - subst imgs. intros Himgs. unfold parse_cert. by rewrite Himgs.
  - intros open_csv home certs fetch Hload Hret Hmeta. unfold crawl_records.
    apply crawl_records_certs; [|done]. by apply parse_home_returned.
Qed.

(** C5: the image list of the record is the list of references found by
    the three selectors, in that order (anchor [href], [img] in anchors,
    [img] in the container), each resolved with [response.urljoin], with
    every URL kept at its first occurrence only: no URL occurs twice, the
    URLs are those of the resolved references, in their order. *)
Theorem image_list_deduplicated_in_first_seen_order response :
  let refs := getall (css response sel_hrefs) ++ getall (css response sel_srcs)
              ++ getall (css response sel_direct_srcs) in
  let resolved := response_urljoin response <$> filter (λ u, Py.truthy u) refs in
  ∃ it,
    items (parse_cert response) = [it]
    ∧ image_urls it = first_occurrences resolved
    ∧ NoDup (image_urls it)
    ∧ (∀ u, u ∈ image_urls it ↔ u ∈ resolved)
    ∧ image_urls it `sublist_of` resolved.
Proof.
  intros refs resolved. eexists. split; [apply parse_cert_items|].
  rewrite image_urls_build_item, collect_images_eq.
  change (resolved_refs response) with resolved.
  split; [done|]. split; [apply first_occurrences_NoDup|].
  split; [apply first_occurrences_elem|apply first_occurrences_sublist].
Qed.

End ParseCert.

(** ** The downloader: extension *)

Section PathLemmas.
Import os_path.

Lemma contains_app_cons c s1 s2 : Py.contains c (s1 +:+ String c s2) = true.
Proof.
  induction s1 as [|d s1 IH].
  - change (EmptyString +:+ String c s2) with (String c s2).
    cbn [Py.contains]. by rewrite decide_True.
  - change (String d s1 +:+ String c s2) with (String d (s1 +:+ String c s2)).
    cbn [Py.contains]. by case_decide.
Qed.

Lemma basename_from_no_sep acc p :
  Py.contains sep p = false → basename_from acc p = acc.
Proof.
  revert acc. induction p as [|c p IH]; intros acc Hp; [done|].
  cbn [Py.contains basename_from] in *.
  destruct (decide (sep = c)) as [<-|Hc]; [done|].
  rewrite decide_False by (by intros ->). by apply IH.
Qed.

Lemma basename_from_app acc dir base :
  Py.contains sep base = false →
  basename_from acc (dir +:+ String sep base) = base.
Proof.
  intros Hb. revert acc. induction dir as [|c dir IH]; intros acc.
  - change (EmptyString +:+ String sep base) with (String sep base).
    cbn [basename_from]. rewrite decide_True by done. by apply basename_from_no_sep.
  - change (String c dir +:+ String sep base) with (String c (dir +:+ String sep base)).
    cbn [basename_from]. case_decide; apply IH.
Qed.

(** The basename of a path is what follows its last separator. *)
Lemma basename_app dir base :
  Py.contains sep base = false → basename (dir +:+ String sep base) = base.
Proof. apply basename_from_app. Qed.

Lemma ext_from_no_dot seen e :
  Py.contains extsep e = false → ext_from seen e = None.
Proof.
  revert seen. induction e as [|c e IH]; intros seen He; [done|].
  cbn [Py.contains ext_from] in *.
  destruct (decide (extsep = c)) as [<-|Hc]; [done|].
  rewrite decide_False by (by intros ->). by apply IH.
Qed.

Lemma ext_from_suffix seen stem e :
  Py.contains extsep e = false →
  seen || has_stem stem = true →
  ext_from seen (stem +:+ String extsep e) = Some (String extsep e).
Proof.
  intros He. revert seen. induction stem as [|c stem IH]; intros seen Hs.
  - change (EmptyString +:+ String extsep e) with (String extsep e).
    cbn [ext_from has_stem] in *. rewrite decide_True by done.
    rewrite (ext_from_no_dot _ _ He).
    rewrite orb_false_r in Hs. by rewrite Hs.
  - change (String c stem +:+ String extsep e) with (String c (stem +:+ String extsep e)).
    cbn [ext_from has_stem] in *. destruct (decide (c = extsep)) as [->|Hc].
    + by rewrite IH.
    + apply IH. by rewrite orb_true_l.
Qed.

(** The extension of a basename [stem.e] with a proper stem is [.e]. *)
Lemma splitext_ext_suffix stem e :
  Py.contains extsep e = false → has_stem stem = true →
  splitext_ext (stem +:+ String extsep e) = String extsep e.
Proof.
  intros He Hs. unfold splitext_ext. by rewrite ext_from_suffix.
Qed.

End PathLemmas.

Section Extension.
Context `{lib : Library}.

Lemma truthy_false s : Py.truthy s = false ↔ s = EmptyString.
Proof. by destruct s. Qed.

Lemma ext_from_url_suffix u dir stem e :
  urlsplit_path (unquote u) = dir +:+ String "/" (stem +:+ String "." e) →
  Py.contains "/" stem = false → Py.contains "/" e = false →
  Py.contains "." e = false → os_path.has_stem stem = true →
  _ext_from_url u = String "." e.
Proof.
  intros Hpath Hstem He Hdot Hs. unfold _ext_from_url. rewrite Hpath.
  rewrite basename_app.
  - rewrite contains_app_cons. by apply splitext_ext_suffix.
  - clear -Hstem He. induction stem as [|c stem IH].
    + change (EmptyString +:+ String "." e) with (String "."%char e).
      cbn [Py.contains]. by rewrite decide_False.
    + change (String c stem +:+ String "." e) with (String c (stem +:+ String "." e)).
      cbn [Py.contains] in *. unfold os_path.sep in *.
      destruct (decide ("/"%char = c)); [done|]. by apply IH.
Qed.


End Extension.


(** ** The downloader: writing *)

Section SaveImage.
Context `{lib : Library}.

Implicit Types (disk : gmap string (list Byte.byte)).

Lemma write_image_outcome os response disk cert index :
  index = default 0 (m_index (meta response)) →
  let path := save_path response cert in
  let g := write_image os response cert index disk in
  (os_open os = Return tt ∧ os_write os = Written
   ∧ result g = Return (<[path := body response]> disk)
   ∧ logs g = [(INFO, "Saved image for cert " +:+ cert +:+ ": " +:+ path)])
  ∨ (∃ e msg, os_open os = Raise e ∧ result g = Return disk ∧ logs g = [(ERROR, msg)])
  ∨ (∃ n e, os_write os = WriteError n e
            ∧ result g = Return (<[path := take n (body response)]> disk)
            ∧ logs g = [(ERROR, "Failed to save image " +:+ path +:+ ": " +:+ exn_str e)]).
Proof.
  intros -> path g. subst path g. unfold write_image. fold (save_path response cert).
  destruct (os_open os) as [[]|e].
  - destruct (os_write os) as [|n e].
    + left. done.
    + right. right. exists n, e. done.
  - right. left. exists e. eexists. done.
Qed.

Lemma save_image_outcome os response disk cert :
  save_cert response = Some cert → save_outcome os response disk cert.
Proof.
  intros Hcert. unfold save_outcome, save_image. rewrite Hcert.
  pose proof (write_image_outcome os response disk cert _ eq_refl) as Hw.
  cbv zeta in Hw.
  destruct (os_makedirs os) as [[]|e] eqn:Hmk.
  - destruct Hw as [Hw|[(e & msg & Ho & Hw)|Hw]]; [by left| |by right; right; left].
    right. left. exists e, msg. split; [by right|done].
  - destruct (os_errno e) as [errno|] eqn:Herr.
    + case_decide.
      * right. left. exists e. eexists. split; [by left|done].
      * destruct Hw as [Hw|[(e' & msg & Ho & Hw)|Hw]]; [by left| |by right; right; left].
        right. left. exists e', msg. split; [by right|done].
    + right. right. right. exists e. done.
Qed.

(** A save the operating system carries out in full. *)
Lemma save_image_all_ok response disk cert :
  save_cert response = Some cert →
  result (save_image all_ok response disk)
  = Return (<[save_path response cert := body response]> disk).
Proof. intros Hcert. unfold save_image. by rewrite Hcert. Qed.

(** C4, amended: [save_image] writes under the final name itself.  When
    the operating system does all it is asked, the whole payload is there
    and the save is logged; when the directory or the file cannot be
    opened, that is logged and nothing is written; when the write fails,
    that is logged and the bytes that were written stay visible under the
    final name.  Two successful saves of the same image leave the same
    bytes as one. *)
Theorem save_image_writes_under_final_name os response disk cert :
  save_cert response = Some cert →
  save_outcome os response disk cert
  ∧ result (save_image all_ok response disk)
    = Return (<[save_path response cert := body response]> disk)
  ∧ (d ← result (save_image all_ok response disk); result (save_image all_ok response d))
    = Return (<[save_path response cert := body response]> disk).
Proof.
  intros Hcert. split; [by apply save_image_outcome|].
  split; [by apply save_image_all_ok|].
  rewrite (save_image_all_ok _ _ _ Hcert). cbn [mbind outcome_bind].
  rewrite (save_image_all_ok _ _ _ Hcert). by rewrite insert_insert_eq.
Qed.

End SaveImage.

(** C4 fails as stated: on a full disk the final name is left holding the
    first two bytes of the image. *)
Lemma partial_file_under_final_name :
  ¬ saved_all_or_nothing (lib := Sample.library) disk_full png_image ∅.
Proof.
  intros Hclaim.
  destruct (Hclaim "1234567890"
              (<["images/1234567890/image_1.png" := [Byte.x89; Byte.x50]]> ∅)
              eq_refl eq_refl) as [Hfull|[_ Hsame]].
  - vm_compute in Hfull. discriminate.
  - vm_compute in Hsame. discriminate.
Qed.

Lemma save_image_writes_png :
  save_cert png_image = Some "1234567890"
  ∧ result (save_image (lib := Sample.library) all_ok png_image ∅)
    = Return {[ "images/1234567890/image_1.png" := [Byte.x89; Byte.x50; Byte.x4e; Byte.x47] ]}.
Proof.
  split; [reflexivity|].
  exact (proj1 (proj2 (save_image_writes_under_final_name (lib := Sample.library)
                         all_ok png_image ∅ "1234567890" eq_refl))).
Defined.

(** ** Duplicate certificates *)

Section Duplicates.
Context `{lib : Library}.

Lemma row_get_single (c : string) :
  csv.row_get (csv.row_dict ["Cert"] [c]) "Cert" = Some c.
Proof.
  unfold csv.row_get, csv.row_dict. simpl. by rewrite lookup_insert_eq.
Qed.

Lemma read_column_single (cs acc : list string) :
  Forall (λ c, Py.truthy c = true) cs →
  read_column ["Cert"] "Cert" (Return <$> ((λ c, [c]) <$> cs)) acc
  = Return (acc ++ (Py.strip <$> cs)).
Proof.
  intros Hcs. revert acc. induction Hcs as [|c cs Hc _ IH]; intros acc.
  { simpl. by rewrite app_nil_r. }
  cbn [fmap list_fmap read_column]. rewrite row_get_single.
  cbn [Py.truthy_opt default]. rewrite Hc, IH. by rewrite <- app_assoc.
Qed.

(** The loader keeps every row of the column, repeated values included. *)
Lemma load_certs_single_column (cs : list string) :
  Forall (λ c, Py.truthy c = true) cs →
  load_certs (Sample.csv_file (["Cert"] :: ((λ c, [c]) <$> cs))) = Return (Py.strip <$> cs).
Proof.
  intros Hcs. unfold load_certs, Sample.csv_file.
  rewrite decide_True by done.
  cbn [mbind outcome_bind fmap list_fmap csv.fieldnames fst snd].
  rewrite bool_decide_eq_true_2 by apply list_elem_of_here.
  exact (read_column_single cs [] Hcs).
Qed.

Lemma endswith_app c s1 s2 :
  s2 ≠ EmptyString → Py.endswith c (s1 +:+ s2) = Py.endswith c s2.
Proof.
  intros Hs2. induction s1 as [|d s1 IH]; [done|].
  change (String d s1 +:+ s2) with (String d (s1 +:+ s2)).
  cbn [Py.endswith]. destruct (s1 +:+ s2) eqn:Happ; [|done].
  destruct s1; [|done]. by destruct s2.
Qed.

Lemma string_app_assoc (s1 s2 s3 : string) : (s1 +:+ s2) +:+ s3 = s1 +:+ s2 +:+ s3.
Proof.
  induction s1 as [|c s1 IH]; [done|].
  change (String c s1 +:+ s2) with (String c (s1 +:+ s2)).
  change (String c (s1 +:+ s2) +:+ s3) with (String c ((s1 +:+ s2) +:+ s3)).
  by rewrite IH.
Qed.

Lemma join_images_store cert :
  Py.startswith "/" cert = false → os_path.join images_store cert = "images/" +:+ cert.
Proof. intros Hs. unfold os_path.join, os_path.sep. by rewrite Hs. Qed.

(** The path of an image, for a certificate that is a plain directory
    name. *)
Lemma image_path_shape cert index ext :
  cert ≠ EmptyString → Py.startswith "/" cert = false → Py.endswith "/" cert = false →
  image_path cert index ext
  = "images/" +:+ cert +:+ "/image_" +:+ pretty index +:+ ext.
Proof.
  intros Hne Hs He. unfold image_path. rewrite (join_images_store _ Hs).
  unfold os_path.join, os_path.sep.
  replace (Py.startswith "/" ("image_" +:+ pretty index +:+ ext)) with false by done.
  replace (Py.truthy ("images/" +:+ cert)) with true by done.
  rewrite endswith_app, He by done. cbn [negb orb].
  change (String "/" ("image_" +:+ pretty index +:+ ext))
    with ("/image_" +:+ pretty index +:+ ext).
  by rewrite string_app_assoc.
Qed.

End Duplicates.

Section NoFiltering.
Context `{lib : Library}.

Lemma save_path_same r1 r2 cert :
  url r1 = url r2 → headers r1 = headers r2 → meta r1 = meta r2 →
  save_path r1 cert = save_path r2 cert ∧ save_cert r1 = save_cert r2.
Proof.
  intros Hu Hh Hm. unfold save_path, save_cert, image_ext. by rewrite Hu, Hh, Hm.
Qed.

(** Nothing filters duplicates where the run completes.  The loader keeps
    a value as often as the file has it; when [parse_home] runs to its end
    it has issued one submission per entry of the list, repeated entries
    included, in order; every submission and every download request is
    exempt from duplicate filtering; each detail page gives one record;
    and two downloads of the same image for the same certificate and index
    go to the same path, where the later payload replaces the earlier
    one. *)
Lemma duplicate_certificates_are_not_filtered open_csv home certs :
  load_certs open_csv = Return certs →
  result (parse_home open_csv home) = Return tt →
  let subs := requests (parse_home open_csv home) in
  cert_of <$> subs = (Some ∘ Some) <$> certs
  ∧ Forall (λ r, rq_dont_filter r = true) subs
  ∧ (∀ c k, Py.truthy c = true →
            load_certs (Sample.csv_file (["Cert"] :: replicate k [c]))
            = Return (replicate k (Py.strip c)))
  ∧ (∀ detail, Forall (λ r, rq_dont_filter r = true) (requests (parse_cert detail))
               ∧ length (items (parse_cert detail)) = 1)
  ∧ (∀ r1 r2 disk cert,
       url r1 = url r2 → headers r1 = headers r2 → meta r1 = meta r2 →
       save_cert r1 = Some cert →
       save_path r2 cert = save_path r1 cert
       ∧ (d ← result (save_image all_ok r1 disk); result (save_image all_ok r2 d))
         = Return (<[save_path r1 cert := body r2]> disk))
  ∧ (∀ cert index ext,
       cert ≠ EmptyString → Py.startswith "/" cert = false → Py.endswith "/" cert = false →
       image_path cert index ext
       = "images/" +:+ cert +:+ "/image_" +:+ pretty index +:+ ext).
Proof.
  intros Hload Hret subs. subst subs.
  split; [by apply parse_home_returned|].
  split.
  { eapply Forall_impl; [apply parse_home_requests|]. by intros r [? _]. }
  split.
  { intros c k Hc.
    rewrite <- (fmap_replicate (λ c, [c]) k c), <- (fmap_replicate Py.strip k c).
    apply load_certs_single_column. by apply Forall_replicate. }
  split.
  { intros detail. split.
    - eapply Forall_impl; [apply parse_cert_requests|]. by intros r [? _].
    - by rewrite parse_cert_items. }
  split; [|apply image_path_shape].
  intros r1 r2 disk cert Hu Hh Hm Hcert.
  destruct (save_path_same r1 r2 cert Hu Hh Hm) as [Hp Hc].
  split; [done|].
  rewrite (save_image_all_ok r1 disk cert Hcert). rewrite Hc in Hcert.
  cbn [mbind outcome_bind].
  rewrite (save_image_all_ok r2 _ cert Hcert), <- Hp. by rewrite insert_insert_eq.
Qed.

End NoFiltering.

(** C10 (as the code has it): the same identifier [k + 1] times in the
    file is loaded [k + 1] times, but on a home page whose form uses GET
    none of the copies is submitted.  The request of the first copy cannot
    be built, the [TypeError] ends [parse_home], and the crawl gives no
    submission and no record where [k + 1] of each are due. *)
Theorem duplicates_on_get_form_are_not_submitted (k : nat) (fetch : Request → Response) :
  load_certs (Sample.csv_file (["Cert"] :: replicate (S k) ["1234567890"]))
  = Return (replicate (S k) "1234567890")
  ∧ requests (parse_home (lib := Sample.library)
                (Sample.csv_file (["Cert"] :: replicate (S k) ["1234567890"])) home_get_unnamed)
    = []
  ∧ crawl_records (lib := Sample.library)
      (Sample.csv_file (["Cert"] :: replicate (S k) ["1234567890"])) home_get_unnamed fetch
    = []
  ∧ result (parse_home (lib := Sample.library)
              (Sample.csv_file (["Cert"] :: replicate (S k) ["1234567890"])) home_get_unnamed)
    = Raise (TypeError "Request.__init__() got an unexpected keyword argument 'params'").
Proof.
  assert (load_certs (Sample.csv_file (["Cert"] :: replicate (S k) ["1234567890"]))
          = Return ("1234567890" :: replicate k "1234567890")) as Hload.
  { rewrite <- (fmap_replicate (λ c, [c]) (S k) "1234567890").
    rewrite load_certs_single_column by (by apply Forall_replicate).
    by rewrite fmap_replicate. }
  destruct (fallback_on_get (lib := Sample.library) _ home_get_unnamed _ _ Hload eq_refl eq_refl)
    as [Hq Hr].
  unfold crawl_records. rewrite Hq. by repeat split.
Qed.

(** The same certificate twice in the file: two submissions. *)
Lemma duplicate_certificate_submitted_twice :
  load_certs (Sample.csv_file [["Cert"]; ["1234567890"]; ["1234567890"]])
  = Return ["1234567890"; "1234567890"]
  ∧ result (parse_home (lib := Sample.library)
              (Sample.csv_file [["Cert"]; ["1234567890"]; ["1234567890"]]) home_named)
    = Return tt
  ∧ cert_of <$> requests (parse_home (lib := Sample.library)
                            (Sample.csv_file [["Cert"]; ["1234567890"]; ["1234567890"]])
                            home_named)
    = [Some (Some "1234567890"); Some (Some "1234567890")].
Proof.
  split; [by vm_compute|]. split; [by vm_compute|].
  apply (duplicate_certificates_are_not_filtered (lib := Sample.library)
           (Sample.csv_file [["Cert"]; ["1234567890"]; ["1234567890"]]) home_named
           ["1234567890"; "1234567890"]).
  - by vm_compute.
  - by vm_compute.
Defined.

(** ** Scenarios of the specification, run *)

(** The field key is the located name, and no fallback is attempted. *)
Example located_name_is_the_field_key :
  requests (parse_home (lib := Sample.library)
              (Sample.csv_file [["Cert"]; ["1234567890"]]) home_named)
  = [{| rq_url := "https://www.cgccards.com/"; rq_method := "POST";
        rq_body := FormEncoded [("certNumber", "1234567890"); ("lookup", EmptyString)];
        rq_callback := cb_parse_cert; rq_errback := cb_errback_log;
        rq_meta := submit_meta "1234567890"; rq_dont_filter := true |}].
Proof. by vm_compute. Qed.

(** Without a located input the first observed name is the field key, and
    [cert] when no name is observed; the form method is then POST. *)
Example fallback_uses_first_observed_name :
  rq_body <$> requests (parse_home (lib := Sample.library)
                          (Sample.csv_file [["Cert"]; ["1234567890"]; ["2000000555"]])
                          (home_no_input ["token"; "q"]))
  = [FormEncoded [("token", "1234567890")]; FormEncoded [("token", "2000000555")]].
Proof. by vm_compute. Qed.

Example fallback_uses_first_fixed_guess :
  rq_body <$> requests (parse_home (lib := Sample.library)
                          (Sample.csv_file [["Cert"]; ["1234567890"]]) (home_no_input []))
  = [FormEncoded [("cert", "1234567890")]].
Proof. by vm_compute. Qed.

(** Two references that resolve to one URL give one image: the URLs are
    compared after they are resolved. *)
Example references_are_resolved_before_comparison :
  collect_images
    (Sample.detail "1234567890" ["/img/a.png"; "https://www.cgccards.com/img/a.png"]
       ["/img/t.jpg"] ["/img/t.jpg"; "/img/b.png"])
  = ["https://www.cgccards.com/img/a.png"; "https://www.cgccards.com/img/t.jpg";
     "https://www.cgccards.com/img/b.png"].
Proof. by vm_compute. Qed.

(** A form with nothing to click is submitted in normal mode all the same:
    three INFO records, no warning, one submission per certificate. *)
Example form_without_button_is_submitted :
  cert_of <$> requests (parse_home (lib := Sample.library)
                          (Sample.csv_file [["Cert"]; ["1234567890"]; ["2000000555"]])
                          home_get_no_button)
  = [Some (Some "1234567890"); Some (Some "2000000555")]
  ∧ logs (parse_home (lib := Sample.library)
            (Sample.csv_file [["Cert"]; ["1234567890"]; ["2000000555"]]) home_get_no_button)
    = [(INFO, "Fetched homepage, locating telephone input & form...");
       (INFO, "Found input[type='tel'] name='certNumber'");
       (INFO, "Found 2 cert(s) in CSV. Submitting lookups...")].
Proof. by vm_compute. Qed.

(** A missing input file: one error record, nothing submitted. *)
Example missing_file_stops_the_run :
  parse_home (lib := Sample.library) Sample.no_file home_named
  = ([Log INFO "Fetched homepage, locating telephone input & form...";
      Log INFO "Found input[type='tel'] name='certNumber'";
      Log ERROR "CSV file not found at CGC.csv. Make sure path is correct."],
     Return tt).
Proof. by vm_compute. Qed.

(** The extension comes from the content type when the URL has none, and
    is [.jpg] when neither gives one. *)
Example extension_from_content_type :
  image_ext (lib := Sample.library)
    (Sample.image "https://www.cgccards.com/img/4711" "1234567890" 2 (Some "image/webp") [])
  = ".webp"
  ∧ image_ext (lib := Sample.library)
      (Sample.image "https://www.cgccards.com/img/4711" "1234567890" 2 None [])
    = ".jpg".
Proof. by vm_compute. Qed.

(** ** The theorems above, at work *)

(** C2 on a page with a posting form and no named [tel] input: the
    candidates start with the observed names, and exactly one request
    leaves. *)
Lemma fallback_first_candidate_only_run :
  candidate_field_names (home_no_input ["token"; "q"])
  = ["token"; "q"; "cert"; "certificate"; "serial"; "lookup"; "search"; "q"]
  ∧ length (requests (_manual_form_submit (lib := Sample.library) "1234567890"
                        (Some "/certlookup") "POST" (submit_meta "1234567890")
                        (home_no_input ["token"; "q"]))) = 1.
Proof.
  destruct (fallback_first_candidate_only (lib := Sample.library) "1234567890"
              (Some "/certlookup") "POST" (submit_meta "1234567890")
              (home_no_input ["token"; "q"]))
    as (Hcands & first & _ & _ & _ & _ & _ & Hone).
  split; [exact Hcands|].
  apply Hone; [discriminate|reflexivity].
Defined.

(** C8 on a missing file: the run ends on the matching error record. *)
Lemma missing_file_error_record :
  last (logs (parse_home (lib := Sample.library) Sample.no_file home_named))
  = Some (ERROR, "CSV file not found at CGC.csv. Make sure path is correct.").
Proof.
  exact (proj1 (proj2 (run_stops_on_input_failure_or_no_certs (lib := Sample.library)
                         Sample.no_file home_named)) _ eq_refl).
Defined.

(** A crawl of two certificates on a posting form, each answered by its
    detail page: two records, keyed by the two certificates in order. *)
Lemma one_record_per_certificate_run :
  head <$> crawl_records (lib := Sample.library)
             (Sample.csv_file [["Cert"]; ["1234567890"]; ["2000000555"]]) home_named detail_for
  = [Some ("cert", Some "1234567890"); Some ("cert", Some "2000000555")].
Proof.
  exact (proj2 (proj2 (one_record_per_detail_page (lib := Sample.library) home_named))
           (Sample.csv_file [["Cert"]; ["1234567890"]; ["2000000555"]]) home_named
           ["1234567890"; "2000000555"] detail_for eq_refl eq_refl (λ _, eq_refl)).
Defined.

(** C9 (as the code has it): two identifiers load without any input error,
    and no record is emitted for either.  The form of the home page uses
    GET, so the request of the first identifier cannot be built: the
    [TypeError] ends [parse_home] before a single submission, no detail
    page is ever asked for, and whatever the site would answer, the crawl
    emits nothing. *)
Theorem get_form_gives_no_record (fetch : Request → Response) :
  load_certs (Sample.csv_file [["Cert"]; ["1234567890"]; ["2000000555"]])
  = Return ["1234567890"; "2000000555"]
  ∧ parse_home (lib := Sample.library)
      (Sample.csv_file [["Cert"]; ["1234567890"]; ["2000000555"]]) home_get_unnamed
    = ([Log INFO "Fetched homepage, locating telephone input & form...";
        Log WARNING ("Found input[type='tel'] with id='cert' but no name attribute."
                     +:+ " Will attempt to submit using form action.");
        Log INFO "Found 2 cert(s) in CSV. Submitting lookups...";
        Log INFO "Attempting manual GET to https://www.cgccards.com/certlookup with field 'cert'"],
       Raise (TypeError "Request.__init__() got an unexpected keyword argument 'params'"))
  ∧ crawl_records (lib := Sample.library)
      (Sample.csv_file [["Cert"]; ["1234567890"]; ["2000000555"]]) home_get_unnamed fetch
    = [].
Proof.
  split; [by vm_compute|]. split; [by vm_compute|].
  unfold crawl_records.
  by destruct (fallback_on_get (lib := Sample.library)
                 (Sample.csv_file [["Cert"]; ["1234567890"]; ["2000000555"]])
                 home_get_unnamed "1234567890" ["2000000555"] eq_refl eq_refl eq_refl) as [-> _].
Qed.

(** * Further properties of the code *)

(** ** Where the requests go *)

Section Routing.
Context `{lib : Library}.

Lemma new_Request_cases kwargs (r : Request) :
  new_Request kwargs r = ([], Return r) ∨ ∃ e, new_Request kwargs r = ([], Raise e).
Proof.
  unfold new_Request. destruct (filter _ kwargs); [|by eauto].
  destruct (request_url_ok (rq_url r)); eauto.
Qed.

Lemma start_requests_routed :
  Forall (λ r, routed r ∧ rq_callback r = cb_parse_home) (requests start_requests).
Proof.
  unfold start_requests. apply for_each_requests_Forall. intros u _.
  match goal with |- context [new_Request ?k ?r] =>
    destruct (new_Request_cases k r) as [-> | [e ->]] end;
    by repeat constructor.
Qed.

Lemma submit_cert_routed response input_name form_action form_method cert :
  Forall routed (requests (submit_cert response input_name form_action form_method cert)).
Proof.
  unfold submit_cert. fold (submit_meta cert).
  pose proof (manual_submit_cases cert form_action form_method (submit_meta cert) response) as Hm.
  cbv zeta in Hm.
  assert (Forall routed
            (requests (_manual_form_submit cert form_action form_method (submit_meta cert) response)))
    as Hman.
  { destruct Hm as [[-> _]|[first [-> _]]]; by repeat constructor. }
  destruct (Py.truthy_opt input_name); [|done].
  destruct (from_response _ _ _) as [[[u m] b]|e]; [by repeat constructor|].
  by rewrite requests_log_bind.
Qed.

Lemma parse_home_routed open_csv response :
  Forall routed (requests (parse_home open_csv response)).
Proof.
  destruct (load_certs open_csv) as [[|c cs]|e] eqn:Hload.
  - destruct (parse_home_stopped open_csv response "No certs found in CSV - nothing to do.")
      as (Hy & _); [by rewrite Hload|].
    unfold requests. rewrite Hy. constructor.
  - destruct (parse_home_loaded open_csv response c cs Hload) as [Hq _].
    rewrite Hq. unfold submission_loop. apply for_each_requests_Forall.
    intros c' _. apply submit_cert_routed.
  - assert (∃ msg, stop_message (load_certs open_csv) = Some msg) as [msg Hmsg].
    { rewrite Hload. destruct e; simpl; eauto. }
    destruct (parse_home_stopped open_csv response msg Hmsg) as (Hy & _).
    unfold requests. rewrite Hy. constructor.
Qed.

Lemma parse_cert_routed response :
  Forall routed (requests (parse_cert response)).
Proof.
  unfold parse_cert. rewrite requests_log_bind.
  assert (∀ (g : gen unit) k (K : gen unit), (∃ l m, g = log l m) →
            requests (g ;; yield (Item k) ;; K) = requests K) as Hgen.
  { intros g k K (l & m & ->). by rewrite requests_log_bind, requests_yield_item_bind. }
  rewrite Hgen by (destruct (collect_images response); eauto).
  apply for_each_requests_Forall. intros p _.
  destruct (download_image_cases (mjoin (m_cert (meta response))) p) as [-> | ->];
    by repeat constructor.
Qed.

(** X1: every request the spider issues, from [start_requests],
    [parse_home] (normal mode or fallback) and [parse_cert], carries the
    configured proxy in its [meta] and has [errback_log] as its errback;
    the callbacks chain the stages: the home page goes to [parse_home],
    every submission to [parse_cert], every download to [save_image]. *)
Theorem every_request_is_proxied_and_chained open_csv home detail :
  Forall (λ r, routed r ∧ rq_callback r = cb_parse_home) (requests start_requests)
  ∧ Forall (λ r, routed r ∧ rq_callback r = cb_parse_cert)
      (requests (parse_home open_csv home))
  ∧ Forall (λ r, routed r ∧ rq_callback r = cb_save_image)
      (requests (parse_cert detail)).
Proof.
  split; [apply start_requests_routed|]. split.
  - apply Forall_and. split; [apply parse_home_routed|].
    eapply Forall_impl; [apply parse_home_requests|]. by intros r [_ ?].
  - apply Forall_and. split; [apply parse_cert_routed|].
    eapply Forall_impl; [apply parse_cert_requests|]. by intros r (_ & ? & _).
Qed.

End Routing.

(** ** The loader, column by column *)

Section RowDict.
Implicit Types (d : gmap string (option string)) (fn r : list string).

Lemma foldl_insert_some_notin (l : list (string * string)) d k :
  k ∉ l.*1 → foldl (λ d kv, <[kv.1 := Some kv.2]> d) d l !! k = d !! k.
Proof.
  revert d. induction l as [|[k' v'] l IH]; intros d Hk; [done|].
  rewrite fmap_cons, not_elem_of_cons in Hk. destruct Hk as [Hne Hk].
  cbn [foldl]. rewrite IH by done. by apply lookup_insert_ne.
Qed.

Lemma foldl_insert_some_lookup (l : list (string * string)) d i k v :
  NoDup l.*1 → l !! i = Some (k, v) →
  foldl (λ d kv, <[kv.1 := Some kv.2]> d) d l !! k = Some (Some v).
Proof.
  revert d i. induction l as [|[k' v'] l IH]; intros d i Hnd Hi; [done|].
  rewrite fmap_cons in Hnd. apply NoDup_cons in Hnd as [Hk' Hnd].
  destruct i as [|i]; cbn [foldl].
  - injection Hi as -> ->. rewrite foldl_insert_some_notin by done.
    apply lookup_insert_eq.
  - by apply (IH _ i).
Qed.

Lemma foldl_insert_none_notin (ks : list string) d k :
  k ∉ ks → foldl (λ d k, <[k := None]> d) d ks !! k = d !! k.
Proof.
  revert d. induction ks as [|k' ks IH]; intros d Hk; [done|].
  rewrite not_elem_of_cons in Hk. destruct Hk as [Hne Hk].
  cbn [foldl]. rewrite IH by done. by apply lookup_insert_ne.
Qed.

Lemma foldl_insert_none_in (ks : list string) d k :
  k ∈ ks → foldl (λ d k, <[k := None]> d) d ks !! k = Some None.
Proof.
  revert d. induction ks as [|k' ks IH]; intros d Hk; [by apply elem_of_nil in Hk|].
  cbn [foldl]. destruct (decide (k ∈ ks)) as [Hin|Hout]; [by apply IH|].
  apply elem_of_cons in Hk as [->|?]; [|done].
  rewrite foldl_insert_none_notin by done. apply lookup_insert_eq.
Qed.

Lemma zip_fst_take fn r : (zip fn r).*1 = take (length r) fn.
Proof.
  revert r. induction fn as [|k fn IH]; intros [|v r]; simpl; [done..|].
  by rewrite IH.
Qed.

(** With distinct field names, the dict of a row gives under the name of
    column [i] the value the row has at [i], and [None] when the row is
    too short. *)
Lemma row_get_row_dict fn r i k :
  NoDup fn → fn !! i = Some k → csv.row_get (csv.row_dict fn r) k = r !! i.
Proof.
  intros Hnd Hi. unfold csv.row_get, csv.row_dict.
  rewrite <- (take_drop (length r) fn) in Hnd.
  apply NoDup_app in Hnd as (Hnd1 & Hdisj & _).
  destruct (r !! i) as [v|] eqn:Hr.
  - assert (i < length r) as Hlt by (by eapply lookup_lt_Some).
    assert (zip fn r !! i = Some (k, v)) as Hz.
    { apply lookup_zip_with_Some. by exists k, v. }
    rewrite foldl_insert_none_notin.
    + erewrite foldl_insert_some_lookup; [done| |exact Hz].
      by rewrite zip_fst_take.
    + apply Hdisj. apply list_elem_of_lookup. exists i.
      by rewrite lookup_take_lt.
  - apply lookup_ge_None in Hr.
    rewrite foldl_insert_none_in; [done|].
    apply list_elem_of_lookup. exists (i - length r).
    rewrite lookup_drop. by replace (length r + (i - length r)) with i by lia.
Qed.

Lemma read_column_rows fn key i (rows : list (list string)) acc :
  (∀ r, csv.row_get (csv.row_dict fn r) key = r !! i) →
  read_column fn key (Return <$> rows) acc = Return (acc ++ omap (kept_value i) rows).
Proof.
  intros Hget. revert acc. induction rows as [|r rows IH]; intros acc.
  { simpl. by rewrite app_nil_r. }
  rewrite fmap_cons. destruct r as [|v r].
  { cbn [read_column]. by rewrite IH. }
  cbn [read_column]. rewrite Hget. cbn [omap list_omap].
  assert (kept_value i (v :: r)
          = match (v :: r) !! i with
            | Some w => if Py.truthy w then Some (Py.strip w) else None
            | None => None
            end) as -> by (unfold kept_value; by destruct ((v :: r) !! i)).
  destruct ((v :: r) !! i) as [w|]; cbn [Py.truthy_opt default].
  - destruct (Py.truthy w); rewrite IH; [|done]. by rewrite <- app_assoc.
  - by rewrite IH.
Qed.

Lemma read_column_raise fn key (rows : list (list string)) e rest acc :
  read_column fn key ((Return <$> rows) ++ Raise e :: rest) acc = Raise e.
Proof.
  revert acc. induction rows as [|r rows IH]; intros acc; [done|].
  rewrite fmap_cons. cbn [app read_column]. destruct r; [apply IH|].
  destruct (Py.truthy_opt _); apply IH.
Qed.

End RowDict.

Section Loader.
Context `{lib : Library}.

(** X2: when the header has distinct names and [Cert] is its column [i],
    the loader returns, in file order, the stripped value of column [i] of
    every row that reaches that column with a non-empty value; blank rows,
    short rows and empty values are passed over, and no other column is
    looked at. *)
Theorem loader_reads_the_cert_column open_csv fn rows i :
  open_csv csv_path = Return (Return <$> (fn :: rows)) →
  NoDup fn → fn !! i = Some "Cert" →
  load_certs open_csv = Return (omap (kept_value i) rows).
Proof.
  intros Hopen Hnd Hi. unfold load_certs. rewrite Hopen.
  cbn [mbind outcome_bind fmap list_fmap csv.fieldnames fst snd].
  rewrite bool_decide_eq_true_2 by (by eapply list_elem_of_lookup_2).
  rewrite (read_column_rows fn "Cert" i); [done|].
  intros r. by apply row_get_row_dict.
Qed.

(** X3: when no header name is exactly [Cert] (the match is
    case-sensitive), the loader reads the first column instead, in the same
    way. *)
Theorem loader_falls_back_to_first_column open_csv first fn rows :
  open_csv csv_path = Return (Return <$> ((first :: fn) :: rows)) →
  NoDup (first :: fn) → "Cert" ∉ first :: fn →
  load_certs open_csv = Return (omap (kept_value 0) rows).
Proof.
  intros Hopen Hnd Hcert. unfold load_certs. rewrite Hopen.
  cbn [mbind outcome_bind fmap list_fmap csv.fieldnames fst snd].
  rewrite bool_decide_eq_false_2 by done.
  rewrite (read_column_rows (first :: fn) first 0); [done|].
  intros r. by apply row_get_row_dict.
Qed.

(** X4: an empty file, and a file whose first line is blank, are read
    errors: the header is [None], or has no first column, the exception is
    caught, and [parse_home] ends on one error record without a
    submission, whatever rows follow the blank line. *)
Theorem empty_or_blank_header_is_a_read_error open_csv response :
  (open_csv csv_path = Return [] →
   yields (parse_home open_csv response) = []
   ∧ result (parse_home open_csv response) = Return tt
   ∧ last (logs (parse_home open_csv response))
     = Some (ERROR, "Error reading CSV: argument of type 'NoneType' is not iterable"))
  ∧ (∀ rest, open_csv csv_path = Return (Return [] :: rest) →
     yields (parse_home open_csv response) = []
     ∧ result (parse_home open_csv response) = Return tt
     ∧ last (logs (parse_home open_csv response))
       = Some (ERROR, "Error reading CSV: list index out of range")).
Proof.
  split.
  - intros Hopen. apply parse_home_stopped. unfold load_certs. by rewrite Hopen.
  - intros rest Hopen. apply parse_home_stopped. unfold load_certs. by rewrite Hopen.
Qed.

(** X5: an error raised while a later row is read discards the
    certificates already collected: the loader fails as a whole and
    [parse_home] submits nothing, not even for the rows before the
    error. *)
Theorem read_error_discards_every_certificate open_csv response first fn rows e rest :
  open_csv csv_path = Return (Return (first :: fn) :: (Return <$> rows) ++ Raise e :: rest) →
  load_certs open_csv = Raise e
  ∧ yields (parse_home open_csv response) = []
  ∧ result (parse_home open_csv response) = Return tt.
Proof.
  intros Hopen.
  assert (load_certs open_csv = Raise e) as Hload.
  { unfold load_certs. rewrite Hopen.
    cbn [mbind outcome_bind csv.fieldnames fst snd].
    case_bool_decide; apply read_column_raise. }
  split; [done|].
  assert (∃ msg, stop_message (load_certs open_csv) = Some msg) as [msg Hmsg].
  { rewrite Hload. destruct e; simpl; eauto. }
  by destruct (parse_home_stopped open_csv response msg Hmsg) as (? & ? & _).
Qed.

End Loader.

(** A file with the certificates in its second column, a blank row, a short
    row and an empty value. *)
Lemma loader_reads_the_cert_column_run :
  load_certs (Sample.csv_file [["Grade"; "Cert"]; ["9.5"; " 1234567890 "]; []; ["10"];
                               ["8"; ""]; ["7"; "2000000555"]])
  = Return ["1234567890"; "2000000555"].
Proof.
  apply (loader_reads_the_cert_column
           (Sample.csv_file [["Grade"; "Cert"]; ["9.5"; " 1234567890 "]; []; ["10"];
                             ["8"; ""]; ["7"; "2000000555"]])
           ["Grade"; "Cert"]
           [["9.5"; " 1234567890 "]; []; ["10"]; ["8"; ""]; ["7"; "2000000555"]] 1).
  - reflexivity.
  - by apply (bool_decide_unpack _).
  - reflexivity.
Defined.

(** A header in lower case is not the [Cert] column: the first column is
    read. *)
Lemma loader_falls_back_to_first_column_run :
  load_certs (Sample.csv_file [["serial"; "cert"]; ["A1"; "1234567890"]; ["A2"; "2000000555"]])
  = Return ["A1"; "A2"].
Proof.
  apply (loader_falls_back_to_first_column
           (Sample.csv_file [["serial"; "cert"]; ["A1"; "1234567890"]; ["A2"; "2000000555"]])
           "serial" ["cert"] [["A1"; "1234567890"]; ["A2"; "2000000555"]]).
  - reflexivity.
  - by apply (bool_decide_unpack _).
  - by apply (bool_decide_unpack _).
Defined.

Lemma read_error_discards_every_certificate_run :
  load_certs broken_file
  = Raise (Exception "'utf-8' codec can't decode byte 0xff in position 0")
  ∧ yields (parse_home (lib := Sample.library) broken_file home_named) = [].
Proof.
  destruct (read_error_discards_every_certificate (lib := Sample.library) broken_file
              home_named "Cert" [] [["1234567890"]]
              (Exception "'utf-8' codec can't decode byte 0xff in position 0") [] eq_refl)
    as (Hload & Hy & _).
  by split.
Defined.

Lemma empty_file_is_a_read_error_run :
  last (logs (parse_home (lib := Sample.library) (Sample.csv_file []) home_named))
  = Some (ERROR, "Error reading CSV: argument of type 'NoneType' is not iterable").
Proof.
  exact (proj2 (proj2 (proj1 (empty_or_blank_header_is_a_read_error (lib := Sample.library)
                                (Sample.csv_file []) home_named) eq_refl))).
Defined.

(** ** Stripping *)

Section Strip.
Implicit Types (s t : string).

Lemma string_app_empty_r s : s +:+ EmptyString = s.
Proof.
  induction s as [|c s IH]; [done|].
  change (String c s +:+ EmptyString) with (String c (s +:+ EmptyString)). by rewrite IH.
Qed.

Lemma rev_app_spec s t : String.rev_app s t = String.rev s +:+ t.
Proof.
  revert t. induction s as [|c s IH]; intros t; [done|].
  unfold String.rev. cbn [String.rev_app]. rewrite (IH (String c t)), (IH (String c EmptyString)).
  by rewrite string_app_assoc.
Qed.

Lemma rev_cons c s : String.rev (String c s) = String.rev s +:+ String c EmptyString.
Proof. unfold String.rev at 1. cbn [String.rev_app]. apply rev_app_spec. Qed.

Lemma rev_snoc s c : String.rev (s +:+ String c EmptyString) = String c (String.rev s).
Proof.
  induction s as [|d s IH]; [done|].
  change (String d s +:+ String c EmptyString) with (String d (s +:+ String c EmptyString)).
  by rewrite !rev_cons, IH.
Qed.

Lemma rev_involutive s : String.rev (String.rev s) = s.
Proof.
  induction s as [|c s IH]; [done|]. by rewrite rev_cons, rev_snoc, IH.
Qed.

Lemma lstrip_idemp s : Py.lstrip (Py.lstrip s) = Py.lstrip s.
Proof.
  induction s as [|c s IH]; [done|]. cbn [Py.lstrip].
  destruct (Py.isspace c) eqn:Hc; [done|]. cbn [Py.lstrip]. by rewrite Hc.
Qed.

(** Stripping on the left keeps a last character that is not a space. *)
Lemma lstrip_snoc s c :
  Py.isspace c = false →
  ∃ w, Py.lstrip (s +:+ String c EmptyString) = w +:+ String c EmptyString.
Proof.
  intros Hc. induction s as [|d s [w IH]].
  - exists EmptyString. change (EmptyString +:+ String c EmptyString) with (String c EmptyString).
    cbn [Py.lstrip]. by rewrite Hc.
  - change (String d s +:+ String c EmptyString) with (String d (s +:+ String c EmptyString)).
    cbn [Py.lstrip]. destruct (Py.isspace d); [by exists w|]. by exists (String d s).
Qed.

Lemma rstrip_idemp s : Py.rstrip (Py.rstrip s) = Py.rstrip s.
Proof. unfold Py.rstrip. by rewrite rev_involutive, lstrip_idemp. Qed.

(** Stripping on the right does not bring back whitespace on the left. *)
Lemma lstrip_rstrip s : Py.lstrip s = s → Py.lstrip (Py.rstrip s) = Py.rstrip s.
Proof.
  intros Hs. destruct s as [|c s]; [done|].
  cbn [Py.lstrip] in Hs. destruct (Py.isspace c) eqn:Hc.
  { (* a left strip is never longer than its argument *)
    exfalso. assert (∀ t, String.length (Py.lstrip t) ≤ String.length t) as Hlen.
    { clear. induction t as [|d t IH]; [done|]. cbn [Py.lstrip].
      destruct (Py.isspace d); simpl; lia. }
    specialize (Hlen s). rewrite Hs in Hlen. simpl in Hlen. lia. }
  unfold Py.rstrip. rewrite rev_cons.
  destruct (lstrip_snoc (String.rev s) c Hc) as [w ->].
  rewrite rev_snoc. cbn [Py.lstrip]. by rewrite Hc.
Qed.

Lemma strip_trimmed s : trimmed (Py.strip s).
Proof.
  unfold trimmed, Py.strip. split.
  - apply lstrip_rstrip, lstrip_idemp.
  - apply rstrip_idemp.
Qed.

Lemma strip_of_trimmed s : trimmed s → Py.strip s = s.
Proof. intros [Hl Hr]. unfold Py.strip. by rewrite Hl. Qed.

Lemma read_column_trimmed fn key rd acc certs :
  Forall trimmed acc → read_column fn key rd acc = Return certs → Forall trimmed certs.
Proof.
  revert acc. induction rd as [|[r|e] rd IH]; intros acc Hacc Hrd.
  - by injection Hrd as <-.
  - destruct r as [|v r]; cbn [read_column] in Hrd; [by eapply IH|].
    destruct (Py.truthy_opt _); [|by eapply IH].
    eapply IH; [|exact Hrd]. apply Forall_app. split; [done|].
    constructor; [apply strip_trimmed|constructor].
  - discriminate Hrd.
Qed.

(** X6: every identifier the loader returns is stripped: it has no
    whitespace at either end, and stripping it again changes nothing.  (It
    may be empty, see C1.) *)
Theorem loaded_identifiers_are_trimmed open_csv certs :
  load_certs open_csv = Return certs →
  Forall (λ c, trimmed c ∧ Py.strip c = c) certs.
Proof.
  intros Hload.
  assert (Forall trimmed certs) as Htr.
  { unfold load_certs in Hload.
    destruct (open_csv csv_path) as [rd|e]; [|discriminate Hload].
    cbn [mbind outcome_bind] in Hload.
    destruct (csv.fieldnames rd) as [[[fn|] rest]|e];
      cbn [mbind outcome_bind fst snd] in Hload; try discriminate Hload.
    destruct (bool_decide ("Cert" ∈ fn)).
    - by eapply read_column_trimmed.
    - destruct fn; [discriminate Hload|]. by eapply read_column_trimmed. }
  eapply Forall_impl; [exact Htr|]. intros c Hc. split; [done|by apply strip_of_trimmed].
Qed.

End Strip.

Lemma loaded_identifiers_are_trimmed_run :
  Forall (λ c, trimmed c ∧ Py.strip c = c) ["1234567890"; "20 00"].
Proof.
  apply (loaded_identifiers_are_trimmed
           (Sample.csv_file [["Cert"]; ["  1234567890"]; [" 20 00 "]])).
  reflexivity.
Defined.

(** ** The runs of parse_home *)

Section HomeRuns.
Context `{lib : Library}.

Lemma for_each_traces {A} (l : list A) (f : A → gen unit) (t : A → list event) :
  (∀ x, x ∈ l → f x = (t x, Return tt)) →
  for_each l f = (l ≫= t, Return tt).
Proof.
  induction l as [|x l IH]; intros Hf; [done|].
  cbn [for_each]. unfold mbind at 1, gen_bind.
  rewrite (Hf x) by left. cbn [fst snd].
  rewrite IH by (intros y Hy; apply Hf; by right). done.
Qed.

Lemma parse_home_run open_csv response c cs :
  load_certs open_csv = Return (c :: cs) →
  parse_home open_csv response
  = (home_prologue response (length (c :: cs)) ++ (submission_loop response (c :: cs)).1,
     (submission_loop response (c :: cs)).2).
Proof.
  intros Hload. unfold parse_home, submission_loop, home_prologue, locator_log.
  rewrite Hload.
  destruct (Py.truthy_opt (tel_input_name response));
    [|destruct (Py.truthy_opt (tel_input_id response))]; reflexivity.
Qed.

(** X7: normal mode, with no failure.  When the [tel] input has a name and
    [from_response] builds a request for every certificate, [parse_home]
    yields exactly those requests, one per certificate in file order, each
    with the certificate in its [meta]; it logs three INFO records and no
    warning, and never enters the fallback. *)
Theorem normal_mode_submits_what_from_response_builds open_csv response c cs :
  load_certs open_csv = Return (c :: cs) →
  Py.truthy_opt (tel_input_name response) = true →
  Forall (λ c, is_Some (normal_request response c)) (c :: cs) →
  result (parse_home open_csv response) = Return tt
  ∧ Some <$> requests (parse_home open_csv response) = normal_request response <$> (c :: cs)
  ∧ logs (parse_home open_csv response)
    = [(INFO, "Fetched homepage, locating telephone input & form...");
       (INFO, "Found input[type='tel'] name='"
              +:+ default EmptyString (tel_input_name response) +:+ "'");
       (INFO, "Found " +:+ pretty (length (c :: cs)) +:+ " cert(s) in CSV. Submitting lookups...")].
Proof.
  intros Hload Hname Hall. rewrite (parse_home_run _ _ _ _ Hload).
  unfold submission_loop.
  set (t := λ c, match normal_request response c with
                 | Some r => [Yield (Req r)] | None => [] end).
  rewrite (for_each_traces _ _ t).
  2:{ intros c' Hc'. rewrite Forall_forall in Hall. destruct (Hall c' Hc') as [r Hr].
      unfold submit_cert, t. rewrite Hname. unfold normal_request in *.
      fold (submit_meta c').
      destruct (from_response _ _ _) as [[[u m] b]|e]; [|discriminate Hr]. done. }
  split; [done|]. unfold home_prologue, locator_log. rewrite Hname.
  clear Hload. generalize (length (c :: cs)). intros n.
  split.
  - unfold requests, yields. cbn [fst]. cbn [app omap list_omap].
    induction Hall as [|c' cs' [r Hr] _ IH]; [done|].
    cbn [mbind list_bind]. unfold t at 1. rewrite Hr. cbn [app omap list_omap fmap list_fmap].
    by rewrite IH, Hr.
  - unfold logs. cbn [fst]. cbn [app omap list_omap]. do 3 f_equal.
    induction Hall as [|c' cs' [r Hr] _ IH]; [done|].
    cbn [mbind list_bind]. unfold t at 1. rewrite Hr. cbn [app omap list_omap]. exact IH.
Qed.

(** X8: fallback mode with a method other than GET.  When the [tel] input
    has no usable name and the target URL is one a request can have, every
    certificate is POSTed once, in file order, to the same target with the
    same field name, the first candidate; the target is the page's own URL
    when no form encloses a [tel] input or the form has an empty
    [action]. *)
Theorem fallback_mode_posts_every_certificate open_csv response c cs :
  load_certs open_csv = Return (c :: cs) →
  Py.truthy_opt (tel_input_name response) = false →
  tel_form_method response ≠ "GET" →
  request_url_ok (submit_target (tel_form_action response) response) = true →
  ∃ first,
    head (candidate_field_names response) = Some first
    ∧ result (parse_home open_csv response) = Return tt
    ∧ requests (parse_home open_csv response)
      = (λ c, post_request c (submit_meta c)
                (submit_target (tel_form_action response) response) first) <$> (c :: cs)
    ∧ (Py.truthy_opt (tel_form_action response) = false →
       submit_target (tel_form_action response) response = url response)
    ∧ (xpath response sel_tel_form = [] →
       tel_form_method response = "POST" ∧ tel_form_action response = None).
Proof.
  intros Hload Hname Hm Hok.
  destruct (candidate_field_names_cons response) as (first & rest & Hc).
  exists first. split; [by rewrite Hc|].
  rewrite (parse_home_run _ _ _ _ Hload). unfold submission_loop.
  set (target := submit_target (tel_form_action response) response) in *.
  rewrite (for_each_traces _ _
             (λ c, [attempt_log (tel_form_method response) target first;
                    Yield (Req (post_request c (submit_meta c) target first))])).
  2:{ intros c' _. unfold submit_cert. rewrite Hname. fold (submit_meta c').
      by apply (manual_submit_post _ _ _ _ _ _ rest). }
  split; [done|]. split; [|split].
  - unfold requests, yields. cbn [fst]. rewrite omap_app. cbn [home_prologue].
    assert (omap (λ e, match e with Yield o => Some o | Log _ _ => None end)
              (home_prologue response (length (c :: cs))) = []) as ->.
    { unfold home_prologue, locator_log.
      by repeat (destruct (Py.truthy_opt _)). }
    cbn [app]. generalize (c :: cs). intros l.
    induction l as [|c' l IH]; [done|].
    cbn [mbind list_bind app omap list_omap fmap list_fmap attempt_log]. by rewrite IH.
  - intros Ha. subst target. unfold submit_target. by rewrite Ha.
  - intros Hx. unfold tel_form_method, tel_form_action. by rewrite Hx.
Qed.

(** X9: fallback mode with the method GET.  When the form that holds the
    [tel] input declares the method GET and the input has no usable name,
    [parse_home] submits nothing at all: the first certificate's request
    cannot be built, the [TypeError] ends the callback, and no later
    certificate is tried. *)
Theorem fallback_mode_get_submits_nothing open_csv response c cs :
  load_certs open_csv = Return (c :: cs) →
  Py.truthy_opt (tel_input_name response) = false →
  tel_form_method response = "GET" →
  yields (parse_home open_csv response) = []
  ∧ result (parse_home open_csv response)
    = Raise (TypeError "Request.__init__() got an unexpected keyword argument 'params'")
  ∧ ∃ first, head (candidate_field_names response) = Some first
      ∧ last (logs (parse_home open_csv response))
        = Some (INFO, "Attempting manual GET to "
                      +:+ submit_target (tel_form_action response) response
                      +:+ " with field '" +:+ first +:+ "'").
Proof.
  intros Hload Hname Hget.
  destruct (candidate_field_names_cons response) as (first & rest & Hc).
  rewrite (parse_home_run _ _ _ _ Hload). unfold submission_loop. cbn [for_each].
  assert (submit_cert response (tel_input_name response) (tel_form_action response)
            (tel_form_method response) c
          = ([attempt_log "GET" (submit_target (tel_form_action response) response) first],
             Raise (TypeError "Request.__init__() got an unexpected keyword argument 'params'")))
    as Hsub.
  { unfold submit_cert. rewrite Hname, Hget. by apply (manual_submit_get _ _ _ _ _ rest). }
  unfold mbind at 1, gen_bind. rewrite Hsub. cbn [fst snd].
  split; [|split; [done|]].
  - unfold yields, home_prologue, locator_log. cbn [fst].
    by repeat (destruct (Py.truthy_opt _)).
  - exists first. split; [by rewrite Hc|].
    unfold logs, home_prologue, locator_log. cbn [fst].
    by repeat (destruct (Py.truthy_opt _)).
Qed.

End HomeRuns.

Lemma normal_mode_submits_what_from_response_builds_run :
  Some <$> requests (parse_home (lib := Sample.library)
                       (Sample.csv_file [["Cert"]; ["1234567890"]; ["2000000555"]]) home_named)
  = normal_request (lib := Sample.library) home_named <$> ["1234567890"; "2000000555"].
Proof.
  apply (normal_mode_submits_what_from_response_builds (lib := Sample.library)
           (Sample.csv_file [["Cert"]; ["1234567890"]; ["2000000555"]]) home_named
           "1234567890" ["2000000555"]).
  - reflexivity.
  - reflexivity.
  - repeat constructor; by eexists.
Defined.

Lemma fallback_mode_posts_every_certificate_run :
  ∃ first,
    head (candidate_field_names (home_no_input ["token"])) = Some first
    ∧ requests (parse_home (lib := Sample.library)
                  (Sample.csv_file [["Cert"]; ["1234567890"]; ["2000000555"]])
                  (home_no_input ["token"]))
      = [post_request "1234567890" (submit_meta "1234567890") Sample.home_url first;
         post_request "2000000555" (submit_meta "2000000555") Sample.home_url first].
Proof.
  destruct (fallback_mode_posts_every_certificate (lib := Sample.library)
              (Sample.csv_file [["Cert"]; ["1234567890"]; ["2000000555"]])
              (home_no_input ["token"]) "1234567890" ["2000000555"]
              eq_refl eq_refl ltac:(discriminate) eq_refl)
    as (first & Hfirst & _ & Hreq & _).
  exists first. split; [exact Hfirst|exact Hreq].
Defined.

Lemma fallback_mode_get_submits_nothing_run :
  yields (parse_home (lib := Sample.library)
            (Sample.csv_file [["Cert"]; ["1234567890"]; ["2000000555"]]) home_get_unnamed)
  = [].
Proof.
  exact (proj1 (fallback_mode_get_submits_nothing (lib := Sample.library)
                  (Sample.csv_file [["Cert"]; ["1234567890"]; ["2000000555"]])
                  home_get_unnamed "1234567890" ["2000000555"] eq_refl eq_refl eq_refl)).
Defined.

(** ** The download requests of parse_cert *)

Section Downloads.
Context `{lib : Library}.

Lemma accepted_prefix_lookup (urls : list string) i u :
  accepted_prefix urls !! i = Some u → urls !! i = Some u ∧ request_url_ok u = true.
Proof.
  revert i. induction urls as [|v urls IH]; intros i Hi; [done|].
  cbn [accepted_prefix] in Hi. destruct (request_url_ok v) eqn:Hv; [|done].
  destruct i as [|i]; [by injection Hi as ->|]. by apply IH.
Qed.

Lemma download_loop_run cert (imgs : list string) n :
  let g := for_each (imap (λ i, pair (n + i)) imgs) (download_image cert) in
  requests g = imap (λ i, download_request cert (n + i)) (accepted_prefix imgs)
  ∧ result g = match imgs !! length (accepted_prefix imgs) with
               | None => Return tt
               | Some u => Raise (ValueError ("Missing scheme in request url: " +:+ u))
               end.
Proof.
  revert n. induction imgs as [|u imgs IH]; intros n; [done|].
  cbn [imap accepted_prefix]. cbv zeta.
  set (f := download_image cert).
  destruct (download_image_cases cert (n + 0, u)) as [Hd|Hd].
  - assert (request_url_ok u = true) as Hu.
    { unfold download_image, new_Request in Hd. rewrite download_keywords_accepted in Hd.
      cbn [rq_url snd] in Hd. by destruct (request_url_ok u). }
    rewrite Hu. cbn [for_each].
    rewrite (requests_bind_return (f (n + 0, u)) _ tt) by (subst f; by rewrite Hd).
    rewrite (result_bind_return (f (n + 0, u)) _ tt) by (subst f; by rewrite Hd).
    subst f. rewrite Hd.
    rewrite (imap_ext _ (λ i, pair (S n + i))) by (intros; simpl; f_equal; lia).
    destruct (IH (S n)) as [-> ->]. cbn [imap length lookup list_lookup]. split; [|done].
    unfold requests at 1, yields. cbn [fst omap list_omap app]. f_equal.
    apply imap_ext. intros i x _. simpl. f_equal. lia.
  - assert (request_url_ok u = false) as Hu.
    { unfold download_image, new_Request in Hd. rewrite download_keywords_accepted in Hd.
      cbn [rq_url snd] in Hd. by destruct (request_url_ok u). }
    rewrite Hu. cbn [for_each].
    rewrite (bind_raise (f (n + 0, u)) _ _ (f_equal snd Hd)). subst f. by rewrite Hd.
Qed.

Lemma parse_cert_run response :
  let cert := mjoin (m_cert (meta response)) in
  let imgs := collect_images response in
  requests (parse_cert response) = imap (download_request cert) (accepted_prefix imgs)
  ∧ result (parse_cert response)
    = match imgs !! length (accepted_prefix imgs) with
      | None => Return tt
      | Some u => Raise (ValueError ("Missing scheme in request url: " +:+ u))
      end.
Proof.
  intros cert imgs. unfold parse_cert. fold cert imgs.
  rewrite requests_log_bind, result_log_bind.
  assert (∀ (g : gen unit) k (K : gen unit), (∃ l m, g = log l m) →
            requests (g ;; yield (Item k) ;; K) = requests K
            ∧ result (g ;; yield (Item k) ;; K) = result K) as Hgen.
  { intros g k K (l & m & ->). done. }
  destruct (Hgen (match imgs with
                  | [] => log INFO ("No images found for cert " +:+ default "None" cert +:+ ".")
                  | _ :: _ => log INFO ("Found " +:+ pretty (length imgs)
                                        +:+ " image(s) for cert " +:+ default "None" cert +:+ ".")
                  end) (build_item cert imgs)
              (for_each (imap pair imgs) (download_image cert))) as [-> ->].
  { destruct imgs; eauto. }
  exact (download_loop_run cert imgs 0).
Qed.

(** X10: the download requests of a detail page are one per image, in the
    order of the record, up to the first URL a request cannot have (a URL
    without scheme).  When every URL is accepted the callback returns;
    otherwise it ends in [ValueError] at that URL, after the record and the
    earlier requests have been yielded, and the later images are never
    requested. *)
Theorem downloads_stop_at_first_refused_url response :
  let cert := mjoin (m_cert (meta response)) in
  let imgs := collect_images response in
  items (parse_cert response) = [build_item cert imgs]
  ∧ requests (parse_cert response) = imap (download_request cert) (accepted_prefix imgs)
  ∧ rq_url <$> requests (parse_cert response) = accepted_prefix imgs
  ∧ accepted_prefix imgs `prefix_of` imgs
  ∧ result (parse_cert response)
    = match imgs !! length (accepted_prefix imgs) with
      | None => Return tt
      | Some u => Raise (ValueError ("Missing scheme in request url: " +:+ u))
      end
  ∧ (Forall (λ u, request_url_ok u = true) imgs → accepted_prefix imgs = imgs).
Proof.
  intros cert imgs. split; [apply parse_cert_items|].
  destruct (parse_cert_run response) as [Hq Hr]. fold cert imgs in Hq, Hr.
  split; [done|]. split; [|split; [|split; [done|]]].
  - rewrite Hq. apply list_eq. intros i. rewrite list_lookup_fmap, list_lookup_imap.
    by destruct (accepted_prefix imgs !! i).
  - clear. induction imgs as [|u imgs IH]; [done|]. cbn [accepted_prefix].
    destruct (request_url_ok u); [by apply prefix_cons|apply prefix_nil].
  - clear. induction 1 as [|u imgs Hu _ IH]; [done|].
    cbn [accepted_prefix]. by rewrite Hu, IH.
Qed.

(** X11: the index a download request carries is the number of the column
    that holds its URL in the record: the request with index [k] is for
    the URL under [image_k], so the file [image_k] and the column
    [image_k] are the same image. *)
Theorem download_index_is_the_column_number response :
  let cert := mjoin (m_cert (meta response)) in
  Forall (λ r, ∃ k, m_index (rq_meta r) = Some k ∧ 1 ≤ k
                    ∧ build_item cert (collect_images response) !! k
                      = Some ("image_" +:+ pretty k, Some (rq_url r))
                    ∧ cert_of r = Some cert)
         (requests (parse_cert response)).
Proof.
  intros cert. destruct (parse_cert_run response) as [Hq _]. fold cert in Hq.
  rewrite Hq, build_item_eq. apply Forall_forall. intros r Hr.
  apply list_elem_of_lookup in Hr as [i Hi]. rewrite list_lookup_imap in Hi.
  destruct (accepted_prefix (collect_images response) !! i) as [u|] eqn:Hu; [|done].
  injection Hi as <-. apply accepted_prefix_lookup in Hu as [Hu _].
  exists (i + 1). split; [done|]. split; [lia|]. split; [|done].
  replace (i + 1) with (S i) at 1 by lia.
  assert (∀ (x : string * option string) l j, (x :: l) !! S j = l !! j) as -> by done.
  by rewrite list_lookup_imap, Hu.
Qed.

End Downloads.

Lemma downloads_stop_at_first_refused_url_run :
  rq_url <$> requests (parse_cert (lib := Sample.library) detail_with_script_link)
  = ["https://www.cgccards.com/img/a.png"]
  ∧ result (parse_cert (lib := Sample.library) detail_with_script_link)
    = Raise (ValueError "Missing scheme in request url: javascript:void(0)").
Proof.
  destruct (downloads_stop_at_first_refused_url (lib := Sample.library) detail_with_script_link)
    as (_ & _ & Hurls & _ & Hres & _).
  split; [exact Hurls|exact Hres].
Defined.

(** ** The paths of save_image *)

Section Paths.
Context `{lib : Library}.

Lemma pretty_N_go_no_dot (x : N) s :
  Py.contains "." s = false → Py.contains "." (pretty_N_go x s) = false.
Proof.
  revert s. induction (N.lt_wf_0 x) as [x _ IH]; intros s Hs.
  assert (x = 0 ∨ 0 < x)%N as [->|Hx] by lia.
  - by rewrite pretty_N_go_0.
  - rewrite pretty_N_go_step by done. apply IH; [by apply N.div_lt|].
    cbn [Py.contains]. rewrite Hs. unfold pretty_N_char. by repeat case_match.
Qed.

(** The decimal form of a number has no dot. *)
Lemma pretty_nat_no_dot (n : nat) : Py.contains "." (pretty n) = false.
Proof.
  unfold pretty, pretty_nat, pretty, pretty_N. case_decide; [done|].
  by apply pretty_N_go_no_dot.
Qed.

Lemma split_at_first_dot a b x y :
  Py.contains "." a = false → Py.contains "." b = false →
  a +:+ String "." x = b +:+ String "." y → a = b ∧ x = y.
Proof.
  revert b. induction a as [|c a IH]; intros [|d b] Ha Hb Heq.
  - by injection Heq as ->.
  - injection Heq as <- _. cbn [Py.contains] in Hb. by rewrite decide_True in Hb.
  - injection Heq as -> _. cbn [Py.contains] in Ha. by rewrite decide_True in Ha.
  - injection Heq as -> Heq. cbn [Py.contains] in Ha, Hb.
    destruct (decide ("."%char = d)); [done|].
    destruct (IH b Ha Hb Heq) as [-> ->]. done.
Qed.

Lemma join_filename_inj folder f1 f2 :
  Py.startswith os_path.sep f1 = false → Py.startswith os_path.sep f2 = false →
  os_path.join folder f1 = os_path.join folder f2 → f1 = f2.
Proof.
  intros H1 H2. unfold os_path.join. rewrite H1, H2.
  destruct (negb (Py.truthy folder) || Py.endswith os_path.sep folder); intros Heq.
  - by apply (inj (String.app folder)) in Heq.
  - apply (inj (String.app folder)) in Heq. by injection Heq.
Qed.

Lemma image_path_inj cert i j e1 e2 :
  Py.startswith "." e1 = true → Py.startswith "." e2 = true →
  image_path cert i e1 = image_path cert j e2 → i = j ∧ e1 = e2.
Proof.
  intros H1 H2 Heq. unfold image_path in Heq.
  apply join_filename_inj in Heq; [|done..].
  apply (inj (String.app "image_")) in Heq.
  destruct e1 as [|c1 x]; [done|]. destruct e2 as [|c2 y]; [done|].
  cbn [Py.startswith] in H1, H2.
  apply bool_decide_eq_true_1 in H1 as <-. apply bool_decide_eq_true_1 in H2 as <-.
  apply split_at_first_dot in Heq as [Hp ->]; [|apply pretty_nat_no_dot..].
  by apply (inj pretty) in Hp.
Qed.

(** X12: within the folder of a certificate the paths of two images are
    equal only when their indices and extensions are: with extensions that
    start with a dot (as those read off a URL do, and [.jpg]), images of
    different index never overwrite each other. *)
Theorem image_paths_differ_by_index cert i j e1 e2 :
  Py.startswith "." e1 = true → Py.startswith "." e2 = true →
  image_path cert i e1 = image_path cert j e2 → i = j ∧ e1 = e2.
Proof. apply image_path_inj. Qed.

End Paths.

Lemma image_paths_differ_by_index_run :
  1 = 1 ∧ ".png" = ".png".
Proof.
  exact (image_paths_differ_by_index "1234567890" 1 1 ".png" ".png" eq_refl eq_refl eq_refl).
Defined.

(** The first and the eleventh image of a certificate do not share a
    path. *)
Example first_and_eleventh_image_apart :
  image_path "1234567890" 1 ".png" ≠ image_path "1234567890" 11 ".png".
Proof. intros Heq. by apply image_path_inj in Heq as [? _]. Qed.

(** ** save_image and its inputs *)

Section SaveEdges.
Context `{lib : Library}.

Implicit Types (disk : gmap string (list Byte.byte)).

Lemma join_absolute a b : Py.startswith os_path.sep b = true → os_path.join a b = b.
Proof. intros Hb. unfold os_path.join. by rewrite Hb. Qed.

(** X13: the certificate is used as a path as it is.  An identifier that
    starts with a slash replaces the image folder: the image is written
    under the identifier itself, outside [images].  The empty identifier
    (which the loader can return, C1) puts the image directly into
    [images]. *)
Theorem identifier_is_joined_unchecked response disk cert :
  save_cert response = Some cert →
  let index := default 0 (m_index (meta response)) in
  let filename := "image_" +:+ pretty index +:+ image_ext response in
  (Py.startswith "/" cert = true → Py.endswith "/" cert = false →
   result (save_image all_ok response disk)
   = Return (<[cert +:+ "/" +:+ filename := body response]> disk))
  ∧ (cert = EmptyString →
     result (save_image all_ok response disk)
     = Return (<["images/" +:+ filename := body response]> disk)).
Proof.
  intros Hcert index filename. rewrite (save_image_all_ok _ _ _ Hcert).
  unfold save_path, image_path. fold index. fold filename. split.
  - intros Hs He. rewrite (join_absolute _ cert) by done.
    unfold os_path.join. replace (Py.startswith os_path.sep filename) with false by done.
    unfold os_path.sep. rewrite He.
    destruct cert; [done|]. done.
  - intros ->. done.
Qed.

(** X14: a response whose [meta] has neither certificate nor index is
    saved under the defaults: folder [unknown], index 0. *)
Theorem missing_meta_is_saved_as_unknown response disk :
  m_cert (meta response) = None → m_index (meta response) = None →
  result (save_image all_ok response disk)
  = Return (<["images/unknown/image_0" +:+ image_ext response := body response]> disk).
Proof.
  intros Hc Hi.
  rewrite (save_image_all_ok response disk "unknown") by (unfold save_cert; by rewrite Hc).
  unfold save_path. by rewrite Hi.
Qed.

(** X15: a detail page that came without a certificate still yields its
    record (with an empty certificate) and its download requests, but none
    of these downloads can be saved: their [meta] holds [None] under
    [cert], the default [unknown] does not apply to a key that is present,
    and [save_image] raises [TypeError] before it touches the file system
    or logs anything. *)
Theorem downloads_without_certificate_cannot_be_saved response :
  mjoin (m_cert (meta response)) = None →
  items (parse_cert response)
  = [("cert", None) :: imap (λ i u, ("image_" +:+ pretty (i + 1), Some u))
                         (collect_images response)]
  ∧ Forall (λ rq, ∀ os image disk,
              meta image = rq_meta rq →
              save_image os image disk
              = ([], Raise (TypeError "expected str, bytes or os.PathLike object, not NoneType")))
           (requests (parse_cert response)).
Proof.
  intros Hcert. split.
  - by rewrite parse_cert_items, Hcert, build_item_eq.
  - eapply Forall_impl; [apply parse_cert_requests|].
    intros rq (_ & _ & Hrq) os image disk Hmeta.
    unfold save_image, save_cert. rewrite Hmeta. unfold cert_of in Hrq.
    by rewrite Hrq, Hcert.
Qed.

(** X16: [save_image] changes the file system at one path at most, the
    path of its image; every other file is as it was, whatever the
    operating system answers. *)
Theorem save_image_touches_one_path os response disk disk' :
  result (save_image os response disk) = Return disk' →
  ∃ cert, save_cert response = Some cert
          ∧ ∀ p, p ≠ save_path response cert → disk' !! p = disk !! p.
Proof.
  intros Hres. destruct (save_cert response) as [cert|] eqn:Hcert.
  2:{ unfold save_image in Hres. by rewrite Hcert in Hres. }
  exists cert. split; [done|]. intros p Hp.
  destruct (save_image_outcome os response disk cert Hcert)
    as [(_ & _ & Hr & _)|[(e & msg & _ & Hr & _)|[(n & e & _ & Hr & _)|(e & _ & _ & Hr & _)]]];
    rewrite Hr in Hres; simplify_eq; [|done|]; by rewrite lookup_insert_ne.
Qed.

(** X17: the directory step of [save_image].  An [OSError] of
    [os.makedirs] with errno EEXIST is passed over and the image is
    written; any other [OSError] is logged with the folder, and the image
    is not written although the file could have been opened and
    written. *)
Theorem makedirs_error_decides_the_save response disk cert e errno :
  save_cert response = Some cert →
  os_errno e = Some errno →
  let os := {| os_makedirs := Raise e; os_open := Return tt; os_write := Written |} in
  save_image os response disk
  = if decide (errno = EEXIST) then
      ([Log INFO ("Saved image for cert " +:+ cert +:+ ": " +:+ save_path response cert)],
       Return (<[save_path response cert := body response]> disk))
    else
      ([Log ERROR ("Failed to create directory " +:+ os_path.join images_store cert
                   +:+ ": " +:+ exn_str e)],
       Return disk).
Proof.
  intros Hcert Herr os. unfold save_image. rewrite Hcert. cbn [os_makedirs os].
  rewrite Herr. destruct (decide (errno = EEXIST)) as [->|Hne].
  - rewrite decide_False by (by intros []). reflexivity.
  - rewrite decide_True by done. reflexivity.
Qed.

End SaveEdges.

Lemma identifier_is_joined_unchecked_run :
  result (save_image (lib := Sample.library) all_ok image_of_absolute_cert ∅)
  = Return {[ "/tmp/x/image_1.png" := [Byte.x89; Byte.x50] ]}.
Proof.
  exact (proj1 (identifier_is_joined_unchecked (lib := Sample.library)
                  image_of_absolute_cert ∅ "/tmp/x" eq_refl) eq_refl eq_refl).
Defined.

Lemma missing_meta_is_saved_as_unknown_run :
  result (save_image (lib := Sample.library) all_ok image_without_meta ∅)
  = Return {[ "images/unknown/image_0.png" := [Byte.x89; Byte.x50] ]}.
Proof.
  exact (missing_meta_is_saved_as_unknown (lib := Sample.library) image_without_meta ∅
           eq_refl eq_refl).
Defined.

Lemma downloads_without_certificate_cannot_be_saved_run :
  requests (parse_cert (lib := Sample.library) detail_without_cert)
  = [download_request None 0 "https://www.cgccards.com/img/a.png"]
  ∧ Forall (λ rq, ∀ os image disk,
              meta image = rq_meta rq →
              save_image (lib := Sample.library) os image disk
              = ([], Raise (TypeError "expected str, bytes or os.PathLike object, not NoneType")))
           (requests (parse_cert (lib := Sample.library) detail_without_cert)).
Proof.
  split; [reflexivity|].
  exact (proj2 (downloads_without_certificate_cannot_be_saved (lib := Sample.library)
                  detail_without_cert eq_refl)).
Defined.

Lemma save_image_touches_one_path_run :
  ∃ cert, save_cert png_image = Some cert
          ∧ ∀ p, p ≠ save_path (lib := Sample.library) png_image cert →
                 (<["images/1234567890/image_1.png" := [Byte.x89; Byte.x50]]> ∅
                    : gmap string (list Byte.byte)) !! p = (∅ : gmap string (list Byte.byte)) !! p.
Proof.
  exact (save_image_touches_one_path (lib := Sample.library) disk_full png_image ∅ _ eq_refl).
Defined.

Lemma makedirs_error_decides_the_save_run :
  save_image (lib := Sample.library)
    {| os_makedirs := Raise (OSError 13 "[Errno 13] Permission denied: 'images/1234567890'");
       os_open := Return tt; os_write := Written |} png_image ∅
  = ([Log ERROR ("Failed to create directory images/1234567890: "
                 +:+ "[Errno 13] Permission denied: 'images/1234567890'")],
     Return ∅).
Proof.
  exact (makedirs_error_decides_the_save (lib := Sample.library) png_image ∅ "1234567890"
           (OSError 13 "[Errno 13] Permission denied: 'images/1234567890'") 13 eq_refl eq_refl).
Defined.

(** ** The extension read off a URL *)

Section UrlExtension.
Context `{lib : Library}.

Lemma basename_from_no_sep_out acc p :
  Py.contains os_path.sep acc = Py.contains os_path.sep p →
  Py.contains os_path.sep (os_path.basename_from acc p) = false.
Proof.
  revert acc. induction p as [|c p IH]; intros acc Hacc; [done|].
  cbn [os_path.basename_from]. cbn [Py.contains] in Hacc.
  destruct (decide (c = os_path.sep)) as [->|Hc]; [by apply IH|].
  apply IH. rewrite Hacc. by rewrite decide_False by (by apply not_eq_sym).
Qed.

(** A basename has no separator. *)
Lemma basename_no_sep p : Py.contains os_path.sep (os_path.basename p) = false.
Proof. by apply basename_from_no_sep_out. Qed.

Lemma ext_from_true_none p :
  os_path.ext_from true p = None → Py.contains os_path.extsep p = false.
Proof.
  induction p as [|c p IH]; [done|]. cbn [os_path.ext_from Py.contains].
  destruct (decide (c = os_path.extsep)) as [->|Hc].
  - by destruct (os_path.ext_from true p).
  - rewrite decide_False by (by apply not_eq_sym). exact IH.
Qed.

Lemma ext_from_shape seen p x :
  os_path.ext_from seen p = Some x →
  ∃ e, x = String os_path.extsep e ∧ Py.contains os_path.extsep e = false
       ∧ ∀ c, Py.contains c p = false → Py.contains c x = false.
Proof.
  revert seen. induction p as [|c p IH]; intros seen Hx; [done|].
  cbn [os_path.ext_from] in Hx. destruct (decide (c = os_path.extsep)) as [->|Hc].
  - destruct (os_path.ext_from seen p) as [y|] eqn:Hy.
    + injection Hx as <-. destruct (IH _ Hy) as (e & -> & He & Hsub).
      exists e. split; [done|]. split; [done|]. intros d Hd. apply Hsub.
      cbn [Py.contains] in Hd. by destruct (decide (d = os_path.extsep)).
    + destruct seen; [|done]. injection Hx as <-. exists p.
      split; [done|]. split; [|done]. by apply ext_from_true_none.
  - destruct (IH _ Hx) as (e & -> & He & Hsub).
    exists e. split; [done|]. split; [done|]. intros d Hd. apply Hsub.
    cbn [Py.contains] in Hd. by destruct (decide (d = c)).
Qed.

Lemma ext_from_url_shape u :
  _ext_from_url u = EmptyString
  ∨ ∃ e, _ext_from_url u = String "." e
         ∧ Py.contains "." e = false ∧ Py.contains "/" e = false.
Proof.
  unfold _ext_from_url. destruct (Py.contains "." _); [|by left].
  unfold os_path.splitext_ext.
  destruct (os_path.ext_from false _) as [x|] eqn:Hx; [|by left]. right.
  destruct (ext_from_shape _ _ _ Hx) as (e & -> & He & Hsub).
  exists e. split; [done|]. split; [done|].
  specialize (Hsub "/"%char (basename_no_sep _)). cbn [Py.contains] in Hsub.
  by rewrite decide_False in Hsub.
Qed.

(** X18: the extension read off a URL is empty, or a dot followed by text
    with no dot and no slash: a URL cannot put a path separator, or a
    second extension, into the file name. *)
Theorem url_extension_is_one_plain_suffix u :
  _ext_from_url u = EmptyString
  ∨ ∃ e, _ext_from_url u = String "." e
         ∧ Py.contains "." e = false ∧ Py.contains "/" e = false.
Proof. apply ext_from_url_shape. Qed.

Lemma ext_from_dots dots e :
  os_path.has_stem dots = false → Py.contains os_path.extsep e = false →
  os_path.ext_from false (dots +:+ e) = None.
Proof.
  intros Hd He. induction dots as [|c dots IH].
  - by apply ext_from_no_dot.
  - change (String c dots +:+ e) with (String c (dots +:+ e)).
    cbn [os_path.has_stem os_path.ext_from] in *.
    destruct (decide (c = os_path.extsep)); [|done]. by rewrite IH.
Qed.

(** X19: what does not count as an extension.  A basename that begins with
    its only dots (a hidden-file name such as [.png]) has no extension for
    [save_image], so the content type, or [.jpg], decides; a basename that
    ends in a dot gives the extension [.], and the file is [image_k.]. *)
Theorem leading_dots_are_no_extension response dir :
  (∀ dots e,
     urlsplit_path (unquote (url response)) = dir +:+ "/" +:+ dots +:+ e →
     os_path.has_stem dots = false → Py.contains "." e = false →
     Py.contains "/" (dots +:+ e) = false →
     image_ext response
     = if Py.truthy (type_ext response) then type_ext response else ".jpg")
  ∧ (∀ stem,
       urlsplit_path (unquote (url response)) = dir +:+ "/" +:+ stem +:+ "." →
       os_path.has_stem stem = true → Py.contains "/" stem = false →
       image_ext response = ".").
Proof.
  split.
  - intros dots e Hpath Hd He Hsep.
    assert (_ext_from_url (url response) = EmptyString) as Hu.
    { unfold _ext_from_url. rewrite Hpath.
      change (dir +:+ "/" +:+ dots +:+ e) with (dir +:+ String os_path.sep (dots +:+ e)).
      rewrite basename_app by done. unfold os_path.splitext_ext.
      rewrite ext_from_dots by done. by destruct (Py.contains "." (dots +:+ e)). }
    unfold image_ext. rewrite Hu. cbn [Py.truthy negb]. fold (type_ext response).
    by destruct (type_ext response).
  - intros stem Hpath Hs Hsep.
    assert (_ext_from_url (url response) = ".") as Hu.
    { apply (ext_from_url_suffix _ dir stem EmptyString); done. }
    unfold image_ext. by rewrite Hu.
Qed.

End UrlExtension.

(** Only the last suffix counts. *)
Example extension_of_a_versioned_name :
  _ext_from_url (lib := Sample.library) "https://www.cgccards.com/img/front.v2.png" = ".png".
Proof. by vm_compute. Qed.

Lemma leading_dots_are_no_extension_run :
  image_ext (lib := Sample.library)
    (Sample.image "https://www.cgccards.com/img/.png" "1234567890" 1 (Some "image/gif") [])
  = ".gif".
Proof.
  exact (proj1 (leading_dots_are_no_extension (lib := Sample.library)
                  (Sample.image "https://www.cgccards.com/img/.png" "1234567890" 1
                     (Some "image/gif") []) "/img")
           "." "png" eq_refl eq_refl eq_refl eq_refl).
Defined.

(** ** From a detail page to the files *)

Section PageToFiles.
Context `{lib : Library}.

Implicit Types (disk : gmap string (list Byte.byte)).

Lemma image_ext_starts_with_dot response :
  (∀ t e, guess_extension t = Some e → Py.startswith "." e = true) →
  Py.startswith "." (image_ext response) = true.
Proof.
  intros Hlib. unfold image_ext.
  destruct (ext_from_url_shape (url response)) as [->|(e & -> & _)]; [|done].
  cbn [Py.truthy negb].
  destruct (guess_extension _) as [x|] eqn:Hx; [|done]. cbn [default].
  specialize (Hlib _ _ Hx). by destruct x.
Qed.

Lemma save_all_distinct_indices (responses : list Response) disk cert :
  Forall (λ r, save_cert r = Some cert ∧ Py.startswith "." (image_ext r) = true) responses →
  NoDup (save_index <$> responses) →
  ∃ disk', result (save_all all_ok responses disk) = Return disk'
           ∧ (∀ r, r ∈ responses → disk' !! save_path r cert = Some (body r))
           ∧ (∀ p, (∀ r, r ∈ responses → p ≠ save_path r cert) → disk' !! p = disk !! p).
Proof.
  intros Hall. revert disk. induction Hall as [|r rs [Hcert Hext] Hall IH]; intros disk Hnd.
  { exists disk. split; [done|]. split; [|done]. intros r Hr. by apply elem_of_nil in Hr. }
  rewrite fmap_cons in Hnd. apply NoDup_cons in Hnd as [Hr Hnd].
  pose proof (save_image_all_ok r disk cert Hcert) as Hsave.
  destruct (IH (<[save_path r cert := body r]> disk) Hnd) as (disk' & Hres & Hin & Hout).
  exists disk'. split; [|split].
  - cbn [save_all]. by rewrite (result_bind_return _ _ _ Hsave).
  - intros r' Hr'. apply elem_of_cons in Hr' as [->|Hr']; [|by apply Hin].
    rewrite Hout; [apply lookup_insert_eq|].
    intros r' Hr' Heq. unfold save_path in Heq.
    rewrite Forall_forall in Hall. destruct (Hall r' Hr') as [_ Hext'].
    apply image_path_inj in Heq as [Hidx _]; [|done..].
    apply Hr. apply list_elem_of_fmap. exists r'. by split.
  - intros p Hp. rewrite Hout by (intros r' Hr'; apply Hp; by right).
    apply lookup_insert_ne. apply not_eq_sym, Hp. by left.
Qed.

Lemma download_indices cert (l : list string) n :
  (λ rq, default 0 (m_index (rq_meta rq))) <$> imap (λ i, download_request cert (n + i)) l
  = seq (n + 1) (length l).
Proof.
  revert n. induction l as [|u l IH]; intros n; [done|].
  cbn [imap fmap list_fmap length seq]. f_equal; [simpl; lia|].
  rewrite (imap_ext _ (λ i, download_request cert (S n + i)))
    by (intros; simpl; do 2 f_equal; lia).
  apply IH.
Qed.

(** X20: from a detail page to the files.  Let the download requests of a
    page with certificate [cert] be answered, in any order, each by a
    response that carries the request's [meta], and let every save go
    through.  If the content-type table gives dotted extensions, then
    afterwards every one of these images is on disk, whole, at the path of
    its certificate and index, and no other path has changed. *)
Theorem downloads_of_a_page_are_all_saved page cert (fetch : Request → Response)
    (order : list Request) disk :
  mjoin (m_cert (meta page)) = Some cert →
  (∀ t e, guess_extension t = Some e → Py.startswith "." e = true) →
  (∀ rq, meta (fetch rq) = rq_meta rq) →
  order ≡ₚ requests (parse_cert page) →
  ∃ disk', result (save_all all_ok (fetch <$> order) disk) = Return disk'
           ∧ (∀ rq, rq ∈ requests (parse_cert page) →
                    ∃ k u, rq = download_request (Some cert) k u
                           ∧ disk' !! image_path cert (k + 1) (image_ext (fetch rq))
                             = Some (body (fetch rq)))
           ∧ (∀ p, (∀ rq, rq ∈ requests (parse_cert page) →
                          p ≠ save_path (fetch rq) cert) →
                   disk' !! p = disk !! p).
Proof.
  intros Hcert Hlib Hmeta Horder.
  destruct (parse_cert_run page) as [Hq _]. rewrite Hcert in Hq.
  destruct (save_all_distinct_indices (fetch <$> order) disk cert) as (disk' & Hres & Hin & Hout).
  - apply Forall_fmap. rewrite Horder.
    eapply Forall_impl; [apply parse_cert_requests|].
    intros rq (_ & _ & Hrq). cbn [compose]. split; [|by apply image_ext_starts_with_dot].
    unfold save_cert. rewrite Hmeta. unfold cert_of in Hrq. by rewrite Hrq, Hcert.
  - rewrite <- list_fmap_compose.
    rewrite (list_fmap_ext _ (λ rq, default 0 (m_index (rq_meta rq))) order)
      by (intros ? rq _; unfold compose, save_index; by rewrite Hmeta).
    rewrite Horder, Hq.
    rewrite (download_indices (Some cert) _ 0). apply NoDup_seq.
  - exists disk'. split; [done|]. split.
    + intros rq Hrq. pose proof Hrq as Hrq'. rewrite Hq in Hrq'.
      apply list_elem_of_lookup in Hrq' as [k Hk]. rewrite list_lookup_imap in Hk.
      destruct (accepted_prefix (collect_images page) !! k) as [u|]; [|done].
      injection Hk as Hk. exists k, u. split; [done|].
      rewrite <- (Hin (fetch rq)).
      * unfold save_path. rewrite Hmeta, <- Hk. done.
      * apply list_elem_of_fmap. exists rq. split; [done|]. by rewrite Horder.
    + intros p Hp. apply Hout. intros r Hr.
      apply list_elem_of_fmap in Hr as (rq & -> & Hrq). apply Hp. by rewrite <- Horder.
Qed.

End PageToFiles.

Lemma downloads_of_a_page_are_all_saved_run :
  ∃ disk',
    result (save_all (lib := Sample.library) all_ok
              (image_for <$> reverse (requests (parse_cert (lib := Sample.library)
                                                  detail_with_two_images))) ∅)
    = Return disk'
    ∧ (∀ rq, rq ∈ requests (parse_cert (lib := Sample.library) detail_with_two_images) →
             ∃ k u, rq = download_request (Some "1234567890") k u
                    ∧ disk' !! image_path "1234567890" (k + 1)
                                 (image_ext (lib := Sample.library) (image_for rq))
                      = Some (body (image_for rq)))
    ∧ (∀ p, (∀ rq, rq ∈ requests (parse_cert (lib := Sample.library) detail_with_two_images) →
                   p ≠ save_path (lib := Sample.library) (image_for rq) "1234567890") →
            disk' !! p = (∅ : gmap string (list Byte.byte)) !! p).
Proof.
  apply (downloads_of_a_page_are_all_saved (lib := Sample.library)
           detail_with_two_images "1234567890" image_for
           (reverse (requests (parse_cert (lib := Sample.library) detail_with_two_images)))
           ∅ eq_refl).
  - intros t e. unfold guess_extension, Sample.library, Sample.mime_ext.
    repeat case_decide; by intros [= <-].
  - done.
  - apply reverse_Permutation.
Defined.

(** The two images of a page, saved in the reverse of the order in which
    they were requested. *)
Example two_images_on_disk :
  result (save_all (lib := Sample.library) all_ok
            (image_for <$> reverse (requests (parse_cert (lib := Sample.library)
                                                detail_with_two_images))) ∅)
  = Return {[ "images/1234567890/image_1.png"
                := String.list_byte_of_string "https://www.cgccards.com/img/front.png";
              "images/1234567890/image_2.png"
                := String.list_byte_of_string "https://www.cgccards.com/img/back" ]}.
Proof. by vm_compute. Qed.
